(** * The Azure Functions adapter of genkitx-azure-openai (azure_functions.ts)

    A shallow embedding of [onCallGenkit]: the CORS header builder, the
    request decoder, the context providers and their combinators, the
    error response builder, and the buffered and streaming handlers,
    followed by the properties the adapter's specification states. *)

From Stdlib Require Import ZArith Ascii String.
From stdpp Require Import gmap strings list pretty.

Set Warnings "-register-all".

Local Open Scope string_scope.
Local Open Scope Z_scope.
Local Open Scope list_scope.

(** ** Strings *)

(** The line feed of the template literals ([\n]). *)
Definition LF : string := String "010"%char EmptyString.

(** [String.prototype.toLowerCase], on the ASCII letters header names are
    made of. *)
Definition lower_ascii (c : ascii) : ascii :=
  let n := nat_of_ascii c in
  if (Nat.leb 65 n && Nat.leb n 90)%bool then ascii_of_nat (n + 32) else c.

Fixpoint toLowerCase (s : string) : string :=
  match s with
  | EmptyString => EmptyString
  | String c s' => String (lower_ascii c) (toLowerCase s')
  end.

(** [haystack.includes(needle)] on strings. *)
Fixpoint includes (haystack needle : string) : bool :=
  String.prefix needle haystack
  || match haystack with
     | EmptyString => false
     | String _ rest => includes rest needle
     end.

(** [array.join(sep)]. *)
Definition join (sep : string) (l : list string) : string := String.concat sep l.

(** [array.includes(x)] on an array of strings. *)
Definition array_includes (l : list string) (x : string) : bool :=
  bool_decide (x ∈ l).

(** ** JSON values

    What [JSON.parse] returns and what flows consume and produce. An
    object keeps its properties in insertion order, each name once;
    numbers are kept to the integers. *)
Inductive json : Type :=
| JNull
| JBool (b : bool)
| JNum (n : Z)
| JStr (s : string)
| JArr (items : list json)
| JObj (props : list (string * json)).

(** Property lookup [o\[key\]] on the property list of an object. *)
Fixpoint get_prop (key : string) (props : list (string * json)) : option json :=
  match props with
  | [] => None
  | (k, v) :: rest => if String.eqb k key then Some v else get_prop key rest
  end.

(** A [Record<string, string>] as a JSON object. *)
Definition json_of_record (r : gmap string string) : json :=
  JObj (prod_map id JStr <$> map_to_list r).

(** An [ActionContext]: a record of named fields. *)
Abbreviation ActionContext := (gmap string json).

(** Object spread [{ ...a, ...b }]: the properties of [a], overwritten
    and extended by those of [b]. *)
Definition spread (a b : ActionContext) : ActionContext := b ∪ a.

(** ** Failures *)

(** [Error] instances: genkit's [UserFacingError(status, message)] and
    any other error, of which only the message matters here. *)
Inductive Error : Type :=
| UserFacingError (status message : string)
| PlainError (message : string).

(** What a [catch (error)] clause can receive: an [Error] instance or any
    other thrown value. *)
Inductive thrown : Type :=
| ThrownError (e : Error)
| ThrownValue (v : json).

(** The outcome of a call that may throw (or of an awaited promise that
    may reject). *)
Inductive outcome (A : Type) : Type :=
| Returned (a : A)
| Threw (t : thrown).
Arguments Returned {A} a.
Arguments Threw {A} t.

(** ** Requests and responses *)

(** The [HttpRequest] of the platform. [req_headers] is its [Headers]
    object, which stores names lower-cased; [req_query] lists the entries
    of [new URL(url).searchParams]; [req_text] is what [request.text()]
    resolves to, [None] when it rejects. *)
Record HttpRequest : Type := {
  req_method : string;
  req_url : string;
  req_headers : gmap string string;
  req_query : list (string * string);
  req_params : gmap string string;
  req_text : option string
}.

(** [request.headers.get(name)]: the lookup ignores the case of [name]. *)
Definition headers_get (request : HttpRequest) (name : string) : option string :=
  req_headers request !! toLowerCase name.

Record InvocationContext : Type := {
  functionName : string;
  invocationId : string
}.

(** genkit's [RequestData]: what a context provider receives. *)
Record RequestData : Type := {
  rd_method : string;
  rd_headers : gmap string string;
  rd_input : json
}.

(** The body of an [HttpResponseInit]: none, [jsonBody], or a
    [ReadableStream] given as the chunks enqueued on its controller and
    whether the controller was closed. *)
Inductive response_body : Type :=
| NoBody
| JsonBody (j : json)
| StreamBody (chunks : list string) (closed : bool).

Record HttpResponseInit : Type := {
  status : Z;
  headers : gmap string string;
  body : response_body
}.

(** ** CORS options *)

Inductive origin_option : Type :=
| OriginString (s : string)
| OriginList (l : list string).

Record CorsOptions : Type := {
  origin : option origin_option;
  methods : option (list string);
  allowedHeaders : option (list string);
  exposedHeaders : option (list string);
  credentials : option bool;
  maxAge : option Z
}.

(** The [cors] option: [CorsOptions | boolean | undefined]. *)
Inductive cors_option : Type :=
| CorsUndefined
| CorsBool (b : bool)
| CorsObject (o : CorsOptions).

(** The options object [{}]. *)
Definition empty_CorsOptions : CorsOptions :=
  {| origin := None; methods := None; allowedHeaders := None;
     exposedHeaders := None; credentials := None; maxAge := None |}.

(** [buildCorsHeaders(corsOptions, requestOrigin)]. *)
Definition buildCorsHeaders (corsOptions : cors_option)
    (requestOrigin : option string) : gmap string string :=
  match corsOptions with
  | CorsBool false => ∅
  | _ =>
    let opts :=
      match corsOptions with
      | CorsObject o => o
      | _ => empty_CorsOptions
      end in
    let headers : gmap string string :=
      {[ "Content-Type" := "application/json" ]} in
    let headers :=
      match default (OriginString "*") (origin opts) with
      | OriginList allowed =>
        match requestOrigin with
        | Some ro =>
          if negb (String.eqb ro "") && array_includes allowed ro
          then <["Access-Control-Allow-Origin" := ro]> headers
          else headers
        | None => headers
        end
      | OriginString o => <["Access-Control-Allow-Origin" := o]> headers
      end in
    let methods := default ["POST"; "OPTIONS"] (methods opts) in
    let headers := <["Access-Control-Allow-Methods" := join ", " methods]> headers in
    let allowedHeaders :=
      default ["Content-Type"; "Authorization"] (allowedHeaders opts) in
    let headers :=
      <["Access-Control-Allow-Headers" := join ", " allowedHeaders]> headers in
    let headers :=
      match exposedHeaders opts with
      | Some (h :: t) =>
        <["Access-Control-Expose-Headers" := join ", " (h :: t)]> headers
      | _ => headers
      end in
    let headers :=
      match credentials opts with
      | Some true => <["Access-Control-Allow-Credentials" := "true"]> headers
      | _ => headers
      end in
    let maxAge := default 86400 (maxAge opts) in
    <["Access-Control-Max-Age" := pretty maxAge]> headers
  end.

(** [getRequestOrigin(request)]: an empty [Origin] header counts as none. *)
Definition getRequestOrigin (request : HttpRequest) : option string :=
  match headers_get request "origin" with
  | Some "" => None
  | o => o
  end.

(** [normalizeHeaders(request)]: [forEach] assigns each value under the
    lower-cased name. *)
Definition normalizeHeaders (request : HttpRequest) : gmap string string :=
  foldl (fun result kv => <[toLowerCase kv.1 := kv.2]> result) ∅
        (map_to_list (req_headers request)).

(** [getQueryParams(request)]: a later entry of the same name overwrites
    an earlier one. *)
Definition getQueryParams (request : HttpRequest) : gmap string string :=
  foldl (fun result kv => <[kv.1 := kv.2]> result) ∅ (req_query request).

(** [toRequestData(request, input)]. *)
Definition toRequestData (request : HttpRequest) (input : json) : RequestData :=
  {| rd_method := req_method request;
     rd_headers := normalizeHeaders request;
     rd_input := input |}.

(** ** Effects

    The adapter awaits its collaborators one after the other, so a
    computation is modelled by its outcome together with the calls it
    made to the outside, in order. *)

(** The sites of [azureContext.log], each with the data it prints. *)
Inductive log_entry : Type :=
| LogRequest (method url : string)
| LogHeaders (headers : gmap string string)
| LogRunning (input : json)
| LogCompleted
| LogStreamRequest (method url : string)
| LogStreamCompleted.

(** The calls a context provider makes. *)
Inductive provider_event : Type :=
| PInvoke (i : nat)                (* a combinator calls its i-th provider *)
| PValidator (apiKey : string).    (* the validator given to requireApiKey *)

(** The calls a handler makes. *)
Inductive event : Type :=
| EvText                                             (* request.text() *)
| EvContextProvider (requestData : RequestData)  (* opts.contextProvider *)
| EvProvider (e : provider_event)          (* a call made by the provider *)
| EvFlowRun (input : json) (context : ActionContext)       (* flow.run *)
| EvFlowStream (input : json) (context : ActionContext) (* flow.stream *)
| EvOnError (e : Error)                                (* opts.onError *)
| EvLog (entry : log_entry)                        (* azureContext.log *)
| EvError (error : thrown)                       (* azureContext.error *)
| EvEnqueue (chunk : string)                    (* controller.enqueue *)
| EvClose.                                        (* controller.close *)

Definition M (E A : Type) : Type := (outcome A * list E)%type.

Definition ret {E A : Type} (a : A) : M E A := (Returned a, []).

Definition throw {E A : Type} (t : thrown) : M E A := (Threw t, []).

Definition bind {E A B : Type} (m : M E A) (k : A -> M E B) : M E B :=
  match m with
  | (Returned a, l) => let (r, l') := k a in (r, l ++ l')
  | (Threw t, l) => (Threw t, l)
  end.

(** [try { m } catch (error) { handler error }]. *)
Definition try_catch {E A : Type} (m : M E A) (handler : thrown -> M E A) :
    M E A :=
  match m with
  | (Returned a, l) => (Returned a, l)
  | (Threw t, l) => let (r, l') := handler t in (r, l ++ l')
  end.

(** A call to a collaborator: the event, then what the call gave. *)
Definition call {E A : Type} (e : E) (o : outcome A) : M E A := (o, [e]).

Definition emit {E : Type} (e : E) : M E unit := call e (Returned tt).

(** [for (const x of l) body x]. *)
Fixpoint for_each {E A : Type} (l : list A) (body : A -> M E unit) : M E unit :=
  match l with
  | [] => ret tt
  | x :: rest => bind (body x) (fun _ => for_each rest body)
  end.

(** [if (cond) m]. *)
Definition when {E : Type} (cond : bool) (m : M E unit) : M E unit :=
  if cond then m else ret tt.

Definition result_of {E A : Type} (m : M E A) : outcome A := m.1.
Definition trace_of {E A : Type} (m : M E A) : list E := m.2.

(** Running a provider inside a handler: its calls become the handler's. *)
Definition lift_provider {A : Type} (m : M provider_event A) : M event A :=
  (m.1, EvProvider <$> m.2).

Notation "'let*' x ':=' m 'in' k" := (bind m (fun x => k))
  (at level 61, x pattern, m at level 100, k at level 200,
   right associativity).
Notation "m ';;' k" := (bind m (fun _ => k))
  (at level 100, k at level 200, right associativity).

(** ** Context providers *)

Definition ContextProvider : Type := RequestData -> M provider_event ActionContext.

(** The second argument of [requireApiKey]: the expected value, or a
    validating callback (which returns nothing or throws). *)
Inductive api_key_check : Type :=
| ExpectedValue (v : string)
| Validator (validate : string -> outcome unit).

(** [requireApiKey(headerName, expectedValueOrValidator)]. *)
Definition requireApiKey (headerName : string)
    (expectedValueOrValidator : api_key_check) : ContextProvider :=
  let lowerHeaderName := toLowerCase headerName in
  fun request =>
    match rd_headers request !! lowerHeaderName with
    | None | Some EmptyString =>
      throw (ThrownError (UserFacingError "UNAUTHENTICATED"
               ("Missing required header: " +:+ headerName)))
    | Some apiKey =>
      (match expectedValueOrValidator with
       | ExpectedValue expected =>
         if negb (String.eqb apiKey expected)
         then throw (ThrownError
                       (UserFacingError "PERMISSION_DENIED" "Invalid API key"))
         else ret tt
       | Validator validate => call (PValidator apiKey) (validate apiKey)
       end);;
      ret {[ "auth" := JObj [("apiKey", JStr apiKey)] ]}
    end.

(** [requireHeader(headerName, expectedValue?)]. *)
Definition requireHeader (headerName : string)
    (expectedValue : option string) : ContextProvider :=
  let lowerHeaderName := toLowerCase headerName in
  fun request =>
    match rd_headers request !! lowerHeaderName with
    | None | Some EmptyString =>
      throw (ThrownError (UserFacingError "UNAUTHENTICATED"
               ("Missing required header: " +:+ headerName)))
    | Some value =>
      match expectedValue with
      | Some expected =>
        if negb (String.eqb value expected)
        then throw (ThrownError (UserFacingError "PERMISSION_DENIED"
                      ("Invalid value for header: " +:+ headerName)))
        else ret ∅
      | None => ret ∅
      end
    end.

(** [allowAll()]. *)
Definition allowAll : ContextProvider := fun _ => ret ∅.

(** The loop of [allOf], from the [i]-th provider on. *)
Fixpoint allOf_loop (i : nat) (providers : list ContextProvider)
    (mergedContext : ActionContext) (request : RequestData) :
    M provider_event ActionContext :=
  match providers with
  | [] => ret mergedContext
  | provider :: rest =>
    let* context := (emit (PInvoke i);; provider request) in
    allOf_loop (S i) rest (spread mergedContext context) request
  end.

(** [allOf(...providers)]. *)
Definition allOf (providers : list ContextProvider) : ContextProvider :=
  fun request => allOf_loop 0 providers ∅ request.

(** ** The bearer token provider *)

(** The characters [\s] matches, among those a header value is made of
    (the platform's [Headers] hold byte strings: characters below 256). *)
Definition is_space (c : ascii) : bool :=
  let n := nat_of_ascii c in
  (Nat.leb 9 n && Nat.leb n 13) || Nat.eqb n 32 || Nat.eqb n 160.

(** The characters [.] does not match: the line terminators. *)
Definition is_line_terminator (c : ascii) : bool :=
  let n := nat_of_ascii c in
  Nat.eqb n 10 || Nat.eqb n 13.

Fixpoint no_line_terminator (s : string) : bool :=
  match s with
  | EmptyString => true
  | String c rest => negb (is_line_terminator c) && no_line_terminator rest
  end.

(** [(.+)$] at [s]: the whole rest of the text, when it is not empty and
    has no line terminator. *)
Definition dot_plus_end (s : string) : option string :=
  match s with
  | EmptyString => None
  | String _ _ => if no_line_terminator s then Some s else None
  end.

(** [\s+(.+)$] once a first white space is matched: the greedy [\s+]
    takes the next white space too when the rest then matches, and gives
    it back when it does not. *)
Fixpoint spaces_dot_plus_end (s : string) : option string :=
  match s with
  | EmptyString => None
  | String c rest =>
    if is_space c
    then match spaces_dot_plus_end rest with
         | Some token => Some token
         | None => dot_plus_end s
         end
    else dot_plus_end s
  end.

(** A literal at the start of [s], ignoring case ([/i]); what follows it. *)
Fixpoint strip_prefix_ci (literal s : string) : option string :=
  match literal, s with
  | EmptyString, _ => Some s
  | String p literal', String c s' =>
    if Ascii.eqb (lower_ascii c) (lower_ascii p)
    then strip_prefix_ci literal' s'
    else None
  | String _ _, EmptyString => None
  end.

(** [authHeader.match(/^Bearer\s+(.+)$/i)]: the captured group
    [match\[1\]], [None] when the match is [null]. *)
Definition match_bearer (authHeader : string) : option string :=
  match strip_prefix_ci "Bearer" authHeader with
  | Some (String c rest) => if is_space c then spaces_dot_plus_end rest else None
  | _ => None
  end.

(** [requireBearerToken(validateToken)]; the call of [validateToken] is
    recorded like the one of the validator of [requireApiKey]. *)
Definition requireBearerToken (validateToken : string -> outcome ActionContext) :
    ContextProvider :=
  fun request =>
    match rd_headers request !! "authorization" with
    | None | Some EmptyString =>
      throw (ThrownError
               (UserFacingError "UNAUTHENTICATED" "Missing Authorization header"))
    | Some authHeader =>
      match match_bearer authHeader with
      | None =>
        throw (ThrownError
                 (UserFacingError "UNAUTHENTICATED"
                    "Invalid Authorization header format. Expected: Bearer <token>"))
      | Some token => call (PValidator token) (validateToken token)
      end
    end.

Section Adapter.

(** ** The platform and the collaborators

    [JSON.parse] ([None] when it throws), [JSON.stringify], [String(v)],
    genkit's [getHttpStatus] and [getCallableJSON], and the flow that
    [onCallGenkit] wraps: [flow.run] gives the result or fails;
    [flow.stream] gives the chunks its stream yields, then its output or
    the failure that ended it. *)
Variable JSON_parse : string -> option json.
Variable JSON_stringify : json -> string.
Variable js_String : json -> string.
Variable getHttpStatus : thrown -> Z.
Variable getCallableJSON : thrown -> json.
Variable flow_run : json -> ActionContext -> outcome json.
Variable flow_stream : json -> ActionContext -> list json * outcome json.

(** [error instanceof Error ? error : new Error(String(error))]. *)
Definition toError (error : thrown) : Error :=
  match error with
  | ThrownError e => e
  | ThrownValue v => PlainError (js_String v)
  end.

(** The loop of [anyOf], from the [i]-th provider on. *)
Fixpoint anyOf_loop (i : nat) (providers : list ContextProvider)
    (lastError : option Error) (request : RequestData) :
    M provider_event ActionContext :=
  match providers with
  | [] =>
    throw (ThrownError
             (default (UserFacingError "UNAUTHENTICATED" "Unauthorized")
                      lastError))
  | provider :: rest =>
    try_catch (emit (PInvoke i);; provider request)
      (fun error => anyOf_loop (S i) rest (Some (toError error)) request)
  end.

(** [anyOf(...providers)]. *)
Definition anyOf (providers : list ContextProvider) : ContextProvider :=
  fun request => anyOf_loop 0 providers None request.

(** ** The request decoder *)

(** JavaScript's [parsed && typeof parsed === "object" && "data" in parsed]. *)
Definition has_data (parsed : json) : bool :=
  match parsed with
  | JObj props => bool_decide (is_Some (get_prop "data" props))
  | _ => false
  end.

(** [parsed.data], read when [has_data parsed] holds. *)
Definition data_of (parsed : json) : json :=
  match parsed with
  | JObj props => default JNull (get_prop "data" props)
  | _ => JNull
  end.

(** [parseRequestBody(request)]. *)
Definition parseRequestBody (request : HttpRequest) : M event json :=
  emit EvText;;
  match req_text request with
  | None => ret (JObj [])
  | Some EmptyString => ret (JObj [])
  | Some bodyText =>
    match JSON_parse bodyText with
    | Some parsed => if has_data parsed then ret (data_of parsed) else ret parsed
    | None =>
      throw (ThrownError
               (UserFacingError "INVALID_ARGUMENT" "Invalid JSON in request body"))
    end
  end.

(** ** The handlers *)

(** The options of [onCallGenkit] that the handlers read; an absent
    [debug] or [streaming] reads as [false]. *)
Record AzureFunctionsOptions : Type := {
  cors : cors_option;
  contextProvider : option ContextProvider;
  onError : option (Error -> Z * string);
  debug : bool;
  streaming : bool
}.

Variable opts : AzureFunctionsOptions.

(** [buildAzureFunctionsContext(request, azureContext)]. *)
Definition buildAzureFunctionsContext (request : HttpRequest)
    (azureContext : InvocationContext) : ActionContext :=
  {[ "azureFunctions" :=
       JObj [("request",
              JObj [("url", JStr (req_url request));
                    ("headers", json_of_record (normalizeHeaders request));
                    ("query", json_of_record (getQueryParams request));
                    ("params", json_of_record (req_params request))]);
             ("context",
              JObj [("functionName", JStr (functionName azureContext));
                    ("invocationId", JStr (invocationId azureContext))])] ]}.

(** [resolveActionContext(request, azureContext, input)]. *)
Definition resolveActionContext (request : HttpRequest)
    (azureContext : InvocationContext) (input : json) : M event ActionContext :=
  let azureFunctionsContext := buildAzureFunctionsContext request azureContext in
  match contextProvider opts with
  | Some provider =>
    let requestData := toRequestData request input in
    let* providerContext :=
      (emit (EvContextProvider requestData);;
       lift_provider (provider requestData)) in
    ret (spread azureFunctionsContext providerContext)
  | None => ret azureFunctionsContext
  end.

(** The body [{ error: { status: "INTERNAL", message } }]. *)
Definition internal_error_body (message : string) : json :=
  JObj [("error", JObj [("status", JStr "INTERNAL"); ("message", JStr message)])].

(** [buildErrorResponse(error, corsHeaders)]. *)
Definition buildErrorResponse (error : thrown)
    (corsHeaders : gmap string string) : M event HttpResponseInit :=
  match onError opts with
  | Some handler =>
    let* customError := call (EvOnError (toError error))
                             (Returned (handler (toError error))) in
    ret {| status := customError.1;
           headers := corsHeaders;
           body := JsonBody (internal_error_body customError.2) |}
  | None =>
    ret {| status := getHttpStatus error;
           headers := corsHeaders;
           body := JsonBody (getCallableJSON error) |}
  end.

(** [standardHandler(request, azureContext)]. *)
Definition standardHandler (request : HttpRequest)
    (azureContext : InvocationContext) : M event HttpResponseInit :=
  let requestOrigin := getRequestOrigin request in
  let corsHeaders := buildCorsHeaders (cors opts) requestOrigin in
  if String.eqb (req_method request) "OPTIONS"
  then ret {| status := 204; headers := corsHeaders; body := NoBody |}
  else
    when (debug opts)
      (emit (EvLog (LogRequest (req_method request) (req_url request)));;
       emit (EvLog (LogHeaders (normalizeHeaders request))));;
    try_catch
      (let* input := parseRequestBody request in
       let* actionContext := resolveActionContext request azureContext input in
       when (debug opts) (emit (EvLog (LogRunning input)));;
       let* result := call (EvFlowRun input actionContext)
                           (flow_run input actionContext) in
       when (debug opts) (emit (EvLog LogCompleted));;
       ret {| status := 200;
              headers := corsHeaders;
              body := JsonBody (JObj [("result", result)]) |})
      (fun error =>
         emit (EvError error);;
         buildErrorResponse error corsHeaders).

(** One server-sent event: [`data: ${JSON.stringify(payload)}\n\n`]. The
    [TextEncoder] turns it into its UTF-8 bytes, which a [string] is. *)
Definition sse (payload : json) : string :=
  "data: " +:+ JSON_stringify payload +:+ LF +:+ LF.

(** The [start(controller)] callback of the [ReadableStream]. *)
Definition start (input : json) (actionContext : ActionContext) : M event unit :=
  try_catch
    (let (stream, output) := flow_stream input actionContext in
     emit (EvFlowStream input actionContext);;
     for_each stream
       (fun chunk => emit (EvEnqueue (sse (JObj [("message", chunk)]))));;
     let* result := (output, []) in
     emit (EvEnqueue (sse (JObj [("result", result)])));;
     emit EvClose;;
     when (debug opts) (emit (EvLog LogStreamCompleted)))
    (fun error =>
       emit (EvError error);;
       emit (EvEnqueue (sse (getCallableJSON error)));;
       emit EvClose).

(** What a run of [start] leaves in the stream: the chunks it enqueued,
    and whether it closed the controller. *)
Definition enqueued (l : list event) : list string :=
  omap (fun e => match e with EvEnqueue chunk => Some chunk | _ => None end) l.

Definition is_closed (l : list event) : bool :=
  existsb (fun e => match e with EvClose => true | _ => false end) l.

(** [new ReadableStream({ start })]. *)
Definition ReadableStream (started : M event unit) : M event response_body :=
  (Returned (StreamBody (enqueued (trace_of started))
                        (is_closed (trace_of started))),
   trace_of started).

(** [streamingHandler(request, azureContext)]. *)
Definition streamingHandler (request : HttpRequest)
    (azureContext : InvocationContext) : M event HttpResponseInit :=
  let requestOrigin := getRequestOrigin request in
  let corsHeaders := buildCorsHeaders (cors opts) requestOrigin in
  if String.eqb (req_method request) "OPTIONS"
  then ret {| status := 204; headers := corsHeaders; body := NoBody |}
  else
    when (debug opts)
      (emit (EvLog (LogStreamRequest (req_method request) (req_url request))));;
    try_catch
      (let* input := parseRequestBody request in
       let* actionContext := resolveActionContext request azureContext input in
       let acceptHeader := default "" (headers_get request "accept") in
       let clientWantsStreaming := includes acceptHeader "text/event-stream" in
       if clientWantsStreaming
       then
         let* readableStream := ReadableStream (start input actionContext) in
         ret {| status := 200;
                headers :=
                  <["Connection" := "keep-alive"]>
                    (<["Cache-Control" := "no-cache"]>
                       (<["Content-Type" := "text/event-stream"]> corsHeaders));
                body := readableStream |}
       else
         let* result := call (EvFlowRun input actionContext)
                             (flow_run input actionContext) in
         ret {| status := 200;
                headers := corsHeaders;
                body := JsonBody (JObj [("result", result)]) |})
      (fun error =>
         emit (EvError error);;
         buildErrorResponse error corsHeaders).

(** The handler [onCallGenkit] registers:
    [opts.streaming ? streamingHandler : standardHandler]. *)
Definition handler : HttpRequest -> InvocationContext -> M event HttpResponseInit :=
  if streaming opts then streamingHandler else standardHandler.


(** [JSON.parse] rejects the empty text. *)
Hypothesis JSON_parse_empty : JSON_parse "" = None.

(** * Properties *)

(** ** The CORS header builder *)

(** The header name the origin rules are about. *)
Definition ACAO : string := "Access-Control-Allow-Origin".

(** The origin header of the built map, for any options object. *)
Lemma buildCorsHeaders_origin (o : CorsOptions) (requestOrigin : option string) :
  buildCorsHeaders (CorsObject o) requestOrigin !! ACAO =
  match default (OriginString "*") (origin o) with
  | OriginList allowed =>
    match requestOrigin with
    | Some ro =>
      if negb (String.eqb ro "") && array_includes allowed ro
      then Some ro else None
    | None => None
    end
  | OriginString s => Some s
  end.
Proof.
  unfold buildCorsHeaders, ACAO.
  rewrite lookup_insert_ne by discriminate.
  destruct (credentials o) as [[|]|];
    [rewrite lookup_insert_ne by discriminate| |];
    (destruct (exposedHeaders o) as [[|h t]|];
     [| rewrite lookup_insert_ne by discriminate |]);
    do 2 (rewrite lookup_insert_ne by discriminate);
    (destruct (default (OriginString "*") (origin o)) as [s|allowed];
     [ by rewrite lookup_insert_eq
     | destruct requestOrigin as [ro|]; [|done];
       destruct (negb (String.eqb ro "") && array_includes allowed ro);
       [ by rewrite lookup_insert_eq | done ] ]).
Qed.

(** C5 (amended). For a policy whose origin is a list, the built map has
    [Access-Control-Allow-Origin] equal to the request's origin exactly
    when the request has an [Origin] header whose value is not empty and
    is a member of the list, and has no such header otherwise; for a
    policy whose origin is a single string, that string is emitted as it
    is. *)
Theorem cors_origin_rule (o : CorsOptions) (request : HttpRequest) :
  (forall allowed : list string,
     origin o = Some (OriginList allowed) ->
     buildCorsHeaders (CorsObject o) (getRequestOrigin request) !! ACAO =
     match headers_get request "origin" with
     | Some ro => if bool_decide (ro <> "" /\ ro ∈ allowed) then Some ro else None
     | None => None
     end)
  /\ (forall s : string,
        origin o = Some (OriginString s) ->
        buildCorsHeaders (CorsObject o) (getRequestOrigin request) !! ACAO = Some s).
Proof.
  split.
  - intros allowed Ho.
    rewrite buildCorsHeaders_origin, Ho. simpl.
    unfold getRequestOrigin.
    destruct (headers_get request "origin") as [ro|]; [|done].
    destruct ro as [|c ro'].
    + rewrite bool_decide_eq_false_2; [done | by intros [? _]].
    + simpl. unfold array_includes.
      destruct (decide (String c ro' ∈ allowed)) as [Hin|Hout].
      * rewrite !bool_decide_eq_true_2; [done | done | done].
      * rewrite !bool_decide_eq_false_2; [done | by intros [_ ?] | done].
  - intros s Ho. by rewrite buildCorsHeaders_origin, Ho.
Qed.

(** ** The request decoder *)

(** The failure [parseRequestBody] raises. *)
Definition invalid_json : thrown :=
  ThrownError (UserFacingError "INVALID_ARGUMENT" "Invalid JSON in request body").

(** The decoder never fails on an empty text, and on any other text its
    result is decided by [JSON.parse]. *)
Lemma parseRequestBody_result (request : HttpRequest) :
  result_of (parseRequestBody request) =
  match req_text request with
  | None => Returned (JObj [])
  | Some body =>
    if String.eqb body "" then Returned (JObj [])
    else match JSON_parse body with
         | Some parsed =>
           Returned (if has_data parsed then data_of parsed else parsed)
         | None => Threw invalid_json
         end
  end.
Proof.
  unfold parseRequestBody.
  destruct (req_text request) as [[|c body]|]; simpl; try done.
  destruct (JSON_parse (String c body)) as [parsed|]; [|done].
  by destruct (has_data parsed).
Qed.

(** The decoder reads the body and calls nothing else. *)
Lemma parseRequestBody_trace (request : HttpRequest) :
  trace_of (parseRequestBody request) = [EvText].
Proof.
  unfold parseRequestBody.
  destruct (req_text request) as [[|c body]|]; simpl; try done.
  destruct (JSON_parse (String c body)) as [parsed|]; [|done].
  by destruct (has_data parsed).
Qed.

(** C3. An empty or absent body decodes to the empty object; a body that
    parses to an object with the key [data] decodes to the value of that
    key; any other body that parses decodes to the parsed value. *)
Theorem parseRequestBody_decodes (request : HttpRequest) :
  (req_text request = None \/ req_text request = Some "" ->
   result_of (parseRequestBody request) = Returned (JObj []))
  /\ (forall (body : string) (props : list (string * json)) (v : json),
        req_text request = Some body ->
        JSON_parse body = Some (JObj props) ->
        get_prop "data" props = Some v ->
        result_of (parseRequestBody request) = Returned v)
  /\ (forall (body : string) (parsed : json),
        req_text request = Some body ->
        JSON_parse body = Some parsed ->
        (forall props, parsed = JObj props -> get_prop "data" props = None) ->
        result_of (parseRequestBody request) = Returned parsed).
Proof.
  rewrite parseRequestBody_result.
  split; [|split].
  - by intros [-> | ->].
  - intros body props v -> Hparse Hdata.
    destruct (String.eqb_spec body "") as [-> | _]; [congruence|].
    rewrite Hparse. simpl.
    rewrite Hdata, bool_decide_eq_true_2 by eauto. done.
  - intros body parsed -> Hparse Hnodata.
    destruct (String.eqb_spec body "") as [-> | _]; [congruence|].
    rewrite Hparse.
    destruct parsed as [| | | | |props]; try done.
    simpl. rewrite (Hnodata props eq_refl).
    rewrite bool_decide_eq_false_2; [done | by intros [? ?]].
Qed.

(** C4. A body that is not empty and is not valid JSON makes the decoder
    fail with the [INVALID_ARGUMENT] error whose message is
    "Invalid JSON in request body", and the decoder fails in no other
    way on any request. *)
Theorem parseRequestBody_fails (request : HttpRequest) :
  (forall body : string,
     req_text request = Some body -> body <> "" -> JSON_parse body = None ->
     result_of (parseRequestBody request) =
     Threw (ThrownError
              (UserFacingError "INVALID_ARGUMENT" "Invalid JSON in request body")))
  /\ (forall t : thrown,
        result_of (parseRequestBody request) = Threw t ->
        t = ThrownError
              (UserFacingError "INVALID_ARGUMENT" "Invalid JSON in request body")).
Proof.
  rewrite parseRequestBody_result.
  split.
  - intros body -> Hne Hparse.
    destruct (String.eqb_spec body "") as [-> | _]; [done|].
    by rewrite Hparse.
  - intros t.
    destruct (req_text request) as [body|]; [|done].
    destruct (String.eqb body ""); [done|].
    destruct (JSON_parse body); [done|].
    unfold invalid_json. congruence.
Qed.

(** ** The OPTIONS preflight *)

(** C6. Whatever the options, and in both modes, the handler answers a
    request whose method is OPTIONS with status 204, the CORS headers as
    built for the request and no body, and calls nothing on the way: it
    neither reads the body, nor invokes the context provider, nor the
    flow. *)
Theorem handler_options (request : HttpRequest) (azureContext : InvocationContext) :
  req_method request = "OPTIONS" ->
  handler request azureContext =
  (Returned {| status := 204;
               headers := buildCorsHeaders (cors opts) (getRequestOrigin request);
               body := NoBody |},
   []).
Proof.
  intros Hm. unfold handler.
  destruct (streaming opts);
    [unfold streamingHandler | unfold standardHandler]; by rewrite Hm.
Qed.

(** ** The context providers *)

(** The failure of a provider that misses its header. *)
Definition missing_header (headerName : string) : thrown :=
  ThrownError (UserFacingError "UNAUTHENTICATED"
                 ("Missing required header: " +:+ headerName)).


(** C10. A header that is present with the empty string as its value is
    treated as a missing header by [requireHeader] and by [requireApiKey]:
    both fail with [UNAUTHENTICATED] and the "Missing required header"
    message, whatever value is expected, and the validator given to
    [requireApiKey] is not called. *)
Theorem empty_header_is_missing (headerName : string) (request : RequestData) :
  rd_headers request !! toLowerCase headerName = Some "" ->
  (forall expectedValue : option string,
     requireHeader headerName expectedValue request =
     (Threw (ThrownError (UserFacingError "UNAUTHENTICATED"
                            ("Missing required header: " +:+ headerName))), []))
  /\ (forall check : api_key_check,
        requireApiKey headerName check request =
        (Threw (ThrownError (UserFacingError "UNAUTHENTICATED"
                               ("Missing required header: " +:+ headerName))), [])).
Proof.
  intros Hempty. unfold requireHeader, requireApiKey.
  by rewrite Hempty.
Qed.

(** The calls [anyOf] and [allOf] make when they run [providers] in order,
    the first of them being the [i]-th: each invocation, followed by the
    calls of the provider invoked. *)
Fixpoint calls (i : nat) (providers : list ContextProvider)
    (request : RequestData) : list provider_event :=
  match providers with
  | [] => []
  | provider :: rest =>
    PInvoke i :: trace_of (provider request) ++ calls (S i) rest request
  end.

Lemma anyOf_loop_first_success (providers : list ContextProvider) :
  forall (i : nat) (lastError : option Error) (request : RequestData)
         (k : nat) (provider : ContextProvider) (context : ActionContext),
    providers !! k = Some provider ->
    (forall j q, (j < k)%nat -> providers !! j = Some q ->
                 exists t, result_of (q request) = Threw t) ->
    result_of (provider request) = Returned context ->
    anyOf_loop i providers lastError request =
    (Returned context, calls i (take (S k) providers) request).
Proof.
  induction providers as [|q rest IH]; intros i lastError request k provider
    context Hk Hbefore Hok; [done|].
  destruct k as [|k'].
  - injection Hk as ->. simpl.
    destruct (provider request) as [r l]. simpl in Hok. subst r.
    simpl. by rewrite app_nil_r.
  - destruct (Hbefore 0%nat q) as [t Ht]; [lia | done |].
    simpl in Hk. cbn [anyOf_loop take calls].
    destruct (q request) as [r l]. simpl in Ht. subst r.
    cbn [try_catch bind emit call trace_of snd].
    rewrite (IH (S i) (Some (toError t)) request k' provider context Hk);
      [| intros j q' Hj Hq'; apply (Hbefore (S j) q'); [lia | done] | done].
    done.
Qed.

Lemma anyOf_loop_all_fail (providers : list ContextProvider) :
  forall (i : nat) (lastError : option Error) (request : RequestData)
         (provider : ContextProvider) (t : thrown),
    (forall q, q ∈ providers -> exists t', result_of (q request) = Threw t') ->
    last providers = Some provider ->
    result_of (provider request) = Threw t ->
    anyOf_loop i providers lastError request =
    (Threw (ThrownError (toError t)), calls i providers request).
Proof.
  induction providers as [|q rest IH]; intros i lastError request provider t
    Hall Hlast Hfail; [done|].
  destruct (Hall q) as [tq Htq]; [by left|].
  cbn [anyOf_loop calls].
  destruct rest as [|q' rest'].
  - injection Hlast as ->.
    destruct (provider request) as [r l]. simpl in *. subst r.
    injection Htq as ->. by rewrite app_nil_r.
  - destruct (q request) as [r l]. simpl in Htq. subst r.
    cbn [try_catch bind emit call trace_of snd].
    rewrite (IH (S i) (Some (toError tq)) request provider t);
      [| intros q'' Hin; apply Hall; by right | done | done].
    done.
Qed.

(** An [Error] instance is rethrown as it is. *)
Lemma toError_Error (e : Error) : toError (ThrownError e) = e.
Proof. reflexivity. Qed.

(** C8. [anyOf(p1..pn)] runs the providers in order. When a provider
    succeeds after all the ones before it failed, its context is returned
    as it is and the calls made are those of the providers up to it, none
    of a later one. When every provider fails, the failure is the one of
    the last provider (an [Error] instance as it is, any other thrown
    value as the [Error] the [catch] clause makes of it). Both cases have
    a provider, so the list is not empty. *)
Theorem anyOf_first_success_or_last_failure
    (providers : list ContextProvider) (request : RequestData) :
  (forall (k : nat) (provider : ContextProvider) (context : ActionContext),
     providers !! k = Some provider ->
     (forall j q, (j < k)%nat -> providers !! j = Some q ->
                  exists t, result_of (q request) = Threw t) ->
     result_of (provider request) = Returned context ->
     result_of (anyOf providers request) = Returned context
     /\ trace_of (anyOf providers request) =
        calls 0 (take (S k) providers) request)
  /\ (forall (provider : ContextProvider) (t : thrown),
        (forall q, q ∈ providers -> exists t', result_of (q request) = Threw t') ->
        last providers = Some provider ->
        result_of (provider request) = Threw t ->
        result_of (anyOf providers request) = Threw (ThrownError (toError t))
        /\ (forall e, t = ThrownError e ->
                      result_of (anyOf providers request) = Threw t)
        /\ trace_of (anyOf providers request) = calls 0 providers request).
Proof.
  unfold anyOf. split.
  - intros k provider context Hk Hbefore Hok.
    by rewrite (anyOf_loop_first_success providers 0 None request k provider
                  context Hk Hbefore Hok).
  - intros provider t Hall Hlast Hfail.
    rewrite (anyOf_loop_all_fail providers 0 None request provider t
               Hall Hlast Hfail).
    split; [done|]. split; [|done].
    by intros e ->.
Qed.

(** ** The resolved context *)

(** C9. With a context provider that succeeds, the resolved context is
    the platform's fields merged with the provider's, the provider's field
    winning on every key they share; the provider receives the method,
    the normalized headers and the decoded input. Without a provider the
    resolved context is the platform's fields alone. *)
Theorem resolveActionContext_merge (request : HttpRequest)
    (azureContext : InvocationContext) (input : json) :
  (forall (provider : ContextProvider) (providerContext : ActionContext),
     contextProvider opts = Some provider ->
     result_of (provider {| rd_method := req_method request;
                            rd_headers := normalizeHeaders request;
                            rd_input := input |}) = Returned providerContext ->
     exists resolved : ActionContext,
       result_of (resolveActionContext request azureContext input) =
       Returned resolved
       /\ forall key : string,
            resolved !! key =
            match providerContext !! key with
            | Some field => Some field
            | None => buildAzureFunctionsContext request azureContext !! key
            end)
  /\ (contextProvider opts = None ->
      resolveActionContext request azureContext input =
      (Returned (buildAzureFunctionsContext request azureContext), [])).
Proof.
  unfold resolveActionContext. split.
  - intros provider providerContext -> Hok.
    unfold toRequestData.
    destruct (provider _) as [r l]. simpl in Hok. subst r.
    eexists. split; [reflexivity|].
    intros key. unfold spread. rewrite lookup_union.
    by destruct (providerContext !! key),
                (buildAzureFunctionsContext request azureContext !! key).
  - by intros ->.
Qed.

(** ** The handlers, step by step *)

Lemma for_each_emit {A : Type} (f : A -> event) (l : list A) :
  for_each l (fun x => emit (f x)) = (Returned tt, f <$> l).
Proof.
  induction l as [|x l IH]; [done|].
  simpl. by rewrite IH.
Qed.

(** The two kinds of record the stream carries on success. *)
Definition sse_message (chunk : json) : string := sse (JObj [("message", chunk)]).
Definition sse_result (result : json) : string := sse (JObj [("result", result)]).

(** What [start] does, by what the flow's stream gives. *)
Lemma start_run (input : json) (actionContext : ActionContext) :
  start input actionContext =
  (Returned tt,
   EvFlowStream input actionContext
   :: (EvEnqueue <$> (sse_message <$> (flow_stream input actionContext).1))
   ++ match (flow_stream input actionContext).2 with
      | Returned result =>
        EvEnqueue (sse_result result) :: EvClose
        :: (if debug opts then [EvLog LogStreamCompleted] else [])
      | Threw error =>
        [EvError error; EvEnqueue (sse (getCallableJSON error)); EvClose]
      end).
Proof.
  unfold start.
  destruct (flow_stream input actionContext) as [chunks output].
  cbn [bind emit call].
  rewrite (for_each_emit (fun chunk => EvEnqueue (sse (JObj [("message", chunk)])))).
  rewrite <- list_fmap_compose.
  destruct output as [result|error]; simpl.
  - by destruct (debug opts).
  - by rewrite app_nil_r.
Qed.

(** The response [buildErrorResponse] builds; it never fails. *)
Definition error_response (error : thrown) (corsHeaders : gmap string string) :
    HttpResponseInit :=
  match onError opts with
  | Some handler =>
    {| status := (handler (toError error)).1;
       headers := corsHeaders;
       body := JsonBody (internal_error_body (handler (toError error)).2) |}
  | None =>
    {| status := getHttpStatus error;
       headers := corsHeaders;
       body := JsonBody (getCallableJSON error) |}
  end.

Lemma buildErrorResponse_run (error : thrown) (corsHeaders : gmap string string) :
  buildErrorResponse error corsHeaders =
  (Returned (error_response error corsHeaders),
   match onError opts with
   | Some _ => [EvOnError (toError error)]
   | None => []
   end).
Proof.
  unfold buildErrorResponse, error_response.
  by destruct (onError opts).
Qed.

(** The response of the event-stream branch. *)
Definition sse_response (corsHeaders : gmap string string)
    (started : list event) : HttpResponseInit :=
  {| status := 200;
     headers :=
       <["Connection" := "keep-alive"]>
         (<["Cache-Control" := "no-cache"]>
            (<["Content-Type" := "text/event-stream"]> corsHeaders));
     body := StreamBody (enqueued started) (is_closed started) |}.

(** The buffered success response. *)
Definition result_response (corsHeaders : gmap string string) (result : json) :
    HttpResponseInit :=
  {| status := 200;
     headers := corsHeaders;
     body := JsonBody (JObj [("result", result)]) |}.

(** What the [catch] clause of a handler does with a failure. *)
Definition caught (error : thrown) (corsHeaders : gmap string string) :
    M event HttpResponseInit :=
  (Returned (error_response error corsHeaders),
   EvError error
   :: match onError opts with
      | Some _ => [EvOnError (toError error)]
      | None => []
      end).

(** [l] happened, then [m]. *)
Definition after {A : Type} (l : list event) (m : M event A) : M event A :=
  (m.1, l ++ m.2).

Ltac run :=
  cbn [bind try_catch ret throw emit call when result_of trace_of fst snd app].

Ltac finish :=
  unfold after, caught, sse_response, result_response; simpl;
  rewrite ?app_nil_r, <- ?app_assoc; reflexivity.

(** The calls of [resolveActionContext]: the provider, when there is one,
    and the calls the provider makes. *)
Lemma resolveActionContext_trace (request : HttpRequest)
    (azureContext : InvocationContext) (input : json) :
  trace_of (resolveActionContext request azureContext input) =
  match contextProvider opts with
  | Some provider =>
    EvContextProvider (toRequestData request input)
    :: (EvProvider <$> trace_of (provider (toRequestData request input)))
  | None => []
  end.
Proof.
  unfold resolveActionContext.
  destruct (contextProvider opts) as [provider|]; [|done].
  destruct (provider _) as [[c|t] l]; simpl; [|done].
  by rewrite app_nil_r.
Qed.

(** The streaming handler on a request that is not a preflight. *)
Lemma streamingHandler_run (request : HttpRequest) (azureContext : InvocationContext) :
  String.eqb (req_method request) "OPTIONS" = false ->
  streamingHandler request azureContext =
  let corsHeaders := buildCorsHeaders (cors opts) (getRequestOrigin request) in
  after ((if debug opts
          then [EvLog (LogStreamRequest (req_method request) (req_url request))]
          else []) ++ [EvText])
    match result_of (parseRequestBody request) with
    | Threw error => caught error corsHeaders
    | Returned input =>
      let resolved := resolveActionContext request azureContext input in
      after (trace_of resolved)
        match result_of resolved with
        | Threw error => caught error corsHeaders
        | Returned actionContext =>
          if includes (default "" (headers_get request "accept")) "text/event-stream"
          then (Returned (sse_response corsHeaders
                            (trace_of (start input actionContext))),
                trace_of (start input actionContext))
          else
            after [EvFlowRun input actionContext]
              match flow_run input actionContext with
              | Returned result => ret (result_response corsHeaders result)
              | Threw error => caught error corsHeaders
              end
        end
    end.
Proof.
  intros Hm. unfold streamingHandler. rewrite Hm.
  pose proof (parseRequestBody_trace request) as Htr.
  destruct (parseRequestBody request) as [[input|error] lp];
    simpl in Htr; subst lp; run.
  - destruct (resolveActionContext request azureContext input)
      as [[actionContext|error] lr]; run.
    + destruct (includes _ _); run.
      * unfold ReadableStream. destruct (start input actionContext) as [r ls].
        destruct (debug opts); run; finish.
      * destruct (flow_run input actionContext) as [result|error]; run;
          destruct (debug opts); run; rewrite ?buildErrorResponse_run; run; finish.
    + destruct (debug opts); run; rewrite buildErrorResponse_run; run; finish.
  - destruct (debug opts); run; rewrite buildErrorResponse_run; run; finish.
Qed.

(** The buffered handler on a request that is not a preflight. *)
Lemma standardHandler_run (request : HttpRequest) (azureContext : InvocationContext) :
  String.eqb (req_method request) "OPTIONS" = false ->
  standardHandler request azureContext =
  let corsHeaders := buildCorsHeaders (cors opts) (getRequestOrigin request) in
  after ((if debug opts
          then [EvLog (LogRequest (req_method request) (req_url request));
                EvLog (LogHeaders (normalizeHeaders request))]
          else []) ++ [EvText])
    match result_of (parseRequestBody request) with
    | Threw error => caught error corsHeaders
    | Returned input =>
      let resolved := resolveActionContext request azureContext input in
      after (trace_of resolved)
        match result_of resolved with
        | Threw error => caught error corsHeaders
        | Returned actionContext =>
          after ((if debug opts then [EvLog (LogRunning input)] else [])
                 ++ [EvFlowRun input actionContext])
            match flow_run input actionContext with
            | Returned result =>
              (Returned (result_response corsHeaders result),
               if debug opts then [EvLog LogCompleted] else [])
            | Threw error => caught error corsHeaders
            end
        end
    end.
Proof.
  intros Hm. unfold standardHandler. rewrite Hm.
  pose proof (parseRequestBody_trace request) as Htr.
  destruct (parseRequestBody request) as [[input|error] lp];
    simpl in Htr; subst lp; run.
  - destruct (resolveActionContext request azureContext input)
      as [[actionContext|error] lr]; run.
    + destruct (flow_run input actionContext) as [result|error]; run;
        destruct (debug opts); run; rewrite ?buildErrorResponse_run; run; finish.
    + destruct (debug opts); run; rewrite buildErrorResponse_run; run; finish.
  - destruct (debug opts); run; rewrite buildErrorResponse_run; run; finish.
Qed.

(** What a run of [start] leaves in the stream. *)
Lemma enqueued_app (l1 l2 : list event) :
  enqueued (l1 ++ l2) = enqueued l1 ++ enqueued l2.
Proof. apply omap_app. Qed.

Lemma enqueued_EvEnqueue (chunks : list string) :
  enqueued (EvEnqueue <$> chunks) = chunks.
Proof.
  induction chunks as [|c chunks IH]; [done|].
  cbn. by f_equal.
Qed.

Lemma is_closed_app (l1 l2 : list event) :
  is_closed (l1 ++ l2) = is_closed l1 || is_closed l2.
Proof. apply existsb_app. Qed.

Lemma is_closed_EvEnqueue (chunks : list string) :
  is_closed (EvEnqueue <$> chunks) = false.
Proof. by induction chunks. Qed.

(** The stream after a run of [start]: one record per chunk, then the
    result record or the error record, and the controller closed. *)
Lemma start_stream (input : json) (actionContext : ActionContext) :
  enqueued (trace_of (start input actionContext)) =
  (sse_message <$> (flow_stream input actionContext).1)
  ++ [match (flow_stream input actionContext).2 with
      | Returned result => sse_result result
      | Threw error => sse (getCallableJSON error)
      end]
  /\ is_closed (trace_of (start input actionContext)) = true.
Proof.
  rewrite start_run. cbn [trace_of snd].
  change (EvFlowStream input actionContext :: ?l)
    with ([EvFlowStream input actionContext] ++ l).
  rewrite !enqueued_app, !is_closed_app, enqueued_EvEnqueue, is_closed_EvEnqueue.
  destruct (flow_stream input actionContext).2 as [result|error]; [|done].
  by destruct (debug opts).
Qed.

(** No event of the list [H] speaks of is the one it says is there. *)
Ltac not_in H :=
  unfold caught, after, ret in H; cbn [trace_of snd] in H;
  repeat match type of H with
  | _ ∈ [] => by apply elem_of_nil in H
  | _ ∈ _ :: _ => apply elem_of_cons in H as [H|H]; [discriminate H|]
  | _ ∈ _ ++ _ => apply elem_of_app in H as [H|H]
  | _ ∈ _ <$> _ => apply list_elem_of_fmap in H as (? & H & _); discriminate H
  | _ ∈ (if ?b then _ else _) => destruct b
  | _ ∈ match ?o with Some _ => _ | None => _ end => destruct o
  | _ ∈ match ?o with Returned _ => _ | Threw _ => _ end => destruct o
  end.

(** [flow.stream] is called by [start] alone, with the decoded input and
    the resolved context. *)
Lemma flow_stream_called (request : HttpRequest) (azureContext : InvocationContext)
    (input : json) (actionContext : ActionContext) :
  EvFlowStream input actionContext ∈ trace_of (streamingHandler request azureContext) ->
  String.eqb (req_method request) "OPTIONS" = false
  /\ result_of (parseRequestBody request) = Returned input
  /\ result_of (resolveActionContext request azureContext input) =
     Returned actionContext
  /\ includes (default "" (headers_get request "accept")) "text/event-stream" = true.
Proof.
  intros Hin.
  destruct (String.eqb (req_method request) "OPTIONS") eqn:Hm.
  { unfold streamingHandler in Hin. rewrite Hm in Hin. by apply elem_of_nil in Hin. }
  rewrite (streamingHandler_run _ _ Hm) in Hin. cbv zeta in Hin.
  unfold after in Hin. cbn [trace_of snd] in Hin.
  apply elem_of_app in Hin as [Hin|Hin]; [not_in Hin|].
  destruct (result_of (parseRequestBody request)) as [input'|error];
    [|not_in Hin].
  cbn [snd] in Hin.
  apply elem_of_app in Hin as [Hin|Hin];
    [rewrite resolveActionContext_trace in Hin; not_in Hin|].
  destruct (result_of (resolveActionContext request azureContext input'))
    as [actionContext'|error] eqn:Hres; [|not_in Hin].
  destruct (includes _ _);
    [|destruct (flow_run input' actionContext'); not_in Hin].
  cbn [snd] in Hin. rewrite start_run in Hin. cbn [trace_of snd] in Hin.
  apply elem_of_cons in Hin as [Heq|Hin].
  - injection Heq as -> ->. done.
  - not_in Hin.
Qed.


(** A failure of the flow's streaming execution is reported inside the
    stream: after the records of the chunks already produced comes one
    record with [getCallableJSON] of the failure, and the stream is
    closed. [opts.onError] is not called on this path. *)
Lemma streaming_failure_record (request : HttpRequest)
    (azureContext : InvocationContext)
    (input : json) (actionContext : ActionContext)
    (chunks : list json) (error : thrown) :
  streaming opts = true ->
  EvFlowStream input actionContext ∈ trace_of (handler request azureContext) ->
  flow_stream input actionContext = (chunks, Threw error) ->
  (exists response : HttpResponseInit,
     result_of (handler request azureContext) = Returned response
     /\ status response = 200
     /\ body response =
        StreamBody ((sse_message <$> chunks) ++ [sse (getCallableJSON error)]) true)
  /\ forall e : Error, EvOnError e ∉ trace_of (handler request azureContext).
Proof.
  intros Hstreaming Hcalled Hflow.
  unfold handler in *. rewrite Hstreaming in *.
  destruct (flow_stream_called _ _ _ _ Hcalled) as (Hm & Hparse & Hresolve & Hinc).
  rewrite (streamingHandler_run _ _ Hm). cbv zeta.
  rewrite Hparse, Hresolve, Hinc.
  destruct (start_stream input actionContext) as [Henq Hclosed].
  rewrite Hflow in Henq. cbn [fst snd] in Henq.
  split.
  - eexists. split; [reflexivity|]. split; [reflexivity|].
    unfold sse_response. cbn [body]. by rewrite Henq, Hclosed.
  - intros e Hin. unfold after in Hin. cbn [trace_of snd] in Hin.
    rewrite resolveActionContext_trace, start_run, Hflow in Hin.
    not_in Hin.
Qed.

(** * Further properties *)

(** ** The bearer token provider *)

Fixpoint all_space (s : string) : bool :=
  match s with
  | EmptyString => true
  | String c rest => is_space c && all_space rest
  end.

(** The greedy [\s+] leaves a white space to the token only when the
    token is that one character. *)
Definition leaves_no_space (token : string) : Prop :=
  forall (c : ascii) (rest : string),
    token = String c rest -> is_space c = true -> rest = "".

Lemma dot_plus_end_Some (s token : string) :
  dot_plus_end s = Some token <->
  token = s /\ s <> "" /\ no_line_terminator s = true.
Proof.
  destruct s as [|c rest]; simpl.
  - split; [discriminate | by intros (_ & ? & _)].
  - destruct (negb (is_line_terminator c) && no_line_terminator rest).
    + split; [intros [= <-]; done | by intros (-> & _ & _)].
    + split; [discriminate | by intros (_ & _ & ?)].
Qed.

Lemma spaces_dot_plus_end_sound (s : string) :
  forall token : string,
    spaces_dot_plus_end s = Some token ->
    exists spaces : string,
      s = spaces +:+ token /\ all_space spaces = true
      /\ token <> "" /\ no_line_terminator token = true
      /\ leaves_no_space token.
Proof.
  induction s as [|c rest IH]; intros token Hm; [done|].
  cbn [spaces_dot_plus_end] in Hm.
  destruct (is_space c) eqn:Hc.
  - destruct (spaces_dot_plus_end rest) as [token'|] eqn:Hrest.
    + injection Hm as <-.
      destruct (IH token' eq_refl) as (spaces & -> & Hsp & Hne & Hlt & Hgreedy).
      exists (String c spaces). simpl. by rewrite Hc, Hsp.
    + apply dot_plus_end_Some in Hm as (-> & Hne & Hlt).
      exists "". repeat split; try done.
      intros c' rest' [= <- <-] _.
      destruct rest as [|d rest'']; [done|].
      simpl in Hlt. apply andb_true_iff in Hlt as [_ Hlt].
      cbn [spaces_dot_plus_end] in Hrest.
      assert (dot_plus_end (String d rest'') = Some (String d rest'')) as Hd
        by (apply dot_plus_end_Some; done).
      rewrite Hd in Hrest.
      destruct (is_space d); [|done].
      by destruct (spaces_dot_plus_end rest'').
  - apply dot_plus_end_Some in Hm as (-> & Hne & Hlt).
    exists "". repeat split; try done.
    intros c' rest' [= <- <-] Hc'. congruence.
Qed.

Lemma spaces_dot_plus_end_complete (spaces : string) :
  forall token : string,
    all_space spaces = true -> token <> "" -> no_line_terminator token = true ->
    leaves_no_space token ->
    spaces_dot_plus_end (spaces +:+ token) = Some token.
Proof.
  induction spaces as [|c spaces IH]; intros token Hsp Hne Hlt Hgreedy.
  - destruct token as [|d rest]; [done|].
    change (spaces_dot_plus_end (String d rest) = Some (String d rest)).
    cbn [spaces_dot_plus_end].
    assert (dot_plus_end (String d rest) = Some (String d rest)) as Hd
      by (apply dot_plus_end_Some; done).
    destruct (is_space d) eqn:Hd'; [|exact Hd].
    pose proof (Hgreedy d rest eq_refl Hd') as ->. exact Hd.
  - simpl in Hsp. apply andb_true_iff in Hsp as [Hc Hsp].
    simpl. rewrite Hc. by rewrite (IH token Hsp Hne Hlt Hgreedy).
Qed.

Lemma strip_prefix_ci_spec (literal : string) :
  forall s rest : string,
    strip_prefix_ci literal s = Some rest <->
    exists found : string,
      s = found +:+ rest /\ toLowerCase found = toLowerCase literal.
Proof.
  induction literal as [|p literal IH]; intros s rest.
  - simpl. split.
    + intros [= ->]. by exists "".
    + intros (found & -> & Hfound). by destruct found.
  - destruct s as [|c s']; simpl.
    + split; [done|]. intros (found & Hs & Hfound).
      destruct found; [done|]. by destruct rest.
    + destruct (Ascii.eqb_spec (lower_ascii c) (lower_ascii p)) as [Hcp|Hcp].
      * rewrite IH. split.
        -- intros (found & -> & Hfound). exists (String c found).
           simpl. by rewrite Hcp, Hfound.
        -- intros (found & Hs & Hfound).
           destruct found as [|c' found']; [done|].
           simpl in Hs, Hfound. injection Hs as <- ->. injection Hfound as _ Hfound.
           by exists found'.
      * split; [done|]. intros (found & Hs & Hfound).
        destruct found as [|c' found']; [done|].
        simpl in Hs, Hfound. injection Hs as <- ->. by injection Hfound as ? _.
Qed.

(** X1. The match of [/^Bearer\s+(.+)$/i] on an [Authorization] value:
    the token is captured exactly when the value is the word "bearer" in
    any case, then one or more white spaces, then a token that is not
    empty and has no line terminator; the white spaces are taken
    greedily, so the token starts with a white space only when it is
    that single character. *)
Theorem match_bearer_spec (authHeader token : string) :
  match_bearer authHeader = Some token <->
  exists scheme spaces : string,
    authHeader = scheme +:+ spaces +:+ token
    /\ toLowerCase scheme = "bearer"
    /\ spaces <> "" /\ all_space spaces = true
    /\ token <> "" /\ no_line_terminator token = true
    /\ leaves_no_space token.
Proof.
  unfold match_bearer. split.
  - destruct (strip_prefix_ci "Bearer" authHeader) as [[|c rest]|] eqn:Hstrip;
      [done| |done].
    apply strip_prefix_ci_spec in Hstrip as (scheme & -> & Hscheme).
    destruct (is_space c) eqn:Hc; [|done].
    intros Hm.
    apply spaces_dot_plus_end_sound in Hm as (spaces & -> & Hsp & Hne & Hlt & Hg).
    exists scheme, (String c spaces). simpl. by rewrite Hc, Hsp.
  - intros (scheme & spaces & -> & Hscheme & Hne & Hsp & Hne' & Hlt & Hg).
    destruct spaces as [|c spaces']; [done|].
    simpl in Hsp. apply andb_true_iff in Hsp as [Hc Hsp].
    assert (strip_prefix_ci "Bearer" (scheme +:+ String c spaces' +:+ token) =
            Some (String c spaces' +:+ token)) as ->
      by (apply strip_prefix_ci_spec; by exists scheme).
    simpl. rewrite Hc. by apply spaces_dot_plus_end_complete.
Qed.

(** X2. [requireBearerToken(validateToken)]: without an [Authorization]
    header, or with an empty one, it fails with [UNAUTHENTICATED]
    "Missing Authorization header"; with a value the expression does not
    match it fails with [UNAUTHENTICATED] and the format message; in both
    cases [validateToken] is not called. With a value that matches,
    [validateToken] is called once, with the captured token, and what it
    returns or throws is the provider's outcome as it is. *)
Theorem requireBearerToken_cases
    (validateToken : string -> outcome ActionContext) (request : RequestData) :
  (rd_headers request !! "authorization" = None
   \/ rd_headers request !! "authorization" = Some "" ->
   requireBearerToken validateToken request =
   (Threw (ThrownError
             (UserFacingError "UNAUTHENTICATED" "Missing Authorization header")),
    []))
  /\ (forall authHeader : string,
        rd_headers request !! "authorization" = Some authHeader ->
        authHeader <> "" -> match_bearer authHeader = None ->
        requireBearerToken validateToken request =
        (Threw (ThrownError
                  (UserFacingError "UNAUTHENTICATED"
                     "Invalid Authorization header format. Expected: Bearer <token>")),
         []))
  /\ (forall authHeader token : string,
        rd_headers request !! "authorization" = Some authHeader ->
        match_bearer authHeader = Some token ->
        requireBearerToken validateToken request =
        (validateToken token, [PValidator token])).
Proof.
  unfold requireBearerToken. split; [|split].
  - by intros [-> | ->].
  - intros authHeader -> Hne Hno. destruct authHeader; [done|]. by rewrite Hno.
  - intros authHeader token -> Hm. destruct authHeader; [done|]. by rewrite Hm.
Qed.

(** ** The header and API key providers *)


(** X4. [requireApiKey(h, validator)] with a callback: when the header
    has a value that is not empty, the callback is called once with that
    value; what it throws is thrown as it is, and when it returns the
    context is [{auth: {apiKey: value}}]. *)
Theorem requireApiKey_validator (headerName : string)
    (validate : string -> outcome unit) (request : RequestData) (apiKey : string) :
  rd_headers request !! toLowerCase headerName = Some apiKey ->
  apiKey <> "" ->
  requireApiKey headerName (Validator validate) request =
  (match validate apiKey with
   | Returned _ => Returned {[ "auth" := JObj [("apiKey", JStr apiKey)] ]}
   | Threw t => Threw t
   end,
   [PValidator apiKey]).
Proof.
  intros Hkey Hne. unfold requireApiKey. rewrite Hkey.
  destruct apiKey as [|c apiKey']; [done|].
  by destruct (validate (String c apiKey')) as [[]|t].
Qed.

(** ** The combinators *)

Lemma allOf_loop_success (providers : list ContextProvider) :
  forall (contexts : list ActionContext) (i : nat) (mergedContext : ActionContext)
         (request : RequestData),
    Forall2 (fun provider context => result_of (provider request) = Returned context)
            providers contexts ->
    allOf_loop i providers mergedContext request =
    (Returned (foldl spread mergedContext contexts), calls i providers request).
Proof.
  induction providers as [|p rest IH]; intros contexts i mergedContext request Hall.
  - by apply Forall2_nil_inv_l in Hall as ->.
  - apply Forall2_cons_inv_l in Hall as (c & contexts' & Hp & Hrest & ->).
    cbn [allOf_loop calls foldl].
    destruct (p request) as [r l]. simpl in Hp. subst r.
    cbn [bind emit call trace_of snd].
    rewrite (IH contexts' (S i) (spread mergedContext c) request Hrest).
    done.
Qed.

(** A field of the merge of [contexts] over [mergedContext] is the field
    of the last context that has it. *)
Lemma foldl_spread_lookup (contexts : list ActionContext) :
  forall (mergedContext : ActionContext) (key : string),
    foldl spread mergedContext contexts !! key =
    match last (omap (fun context => context !! key) contexts) with
    | Some field => Some field
    | None => mergedContext !! key
    end.
Proof.
  induction contexts as [|c contexts IH]; intros mergedContext key; [done|].
  cbn [foldl]. rewrite IH. unfold spread. rewrite lookup_union.
  replace (omap (fun context : ActionContext => context !! key) (c :: contexts))
    with (match c !! key with
          | Some field => field :: omap (fun context => context !! key) contexts
          | None => omap (fun context : ActionContext => context !! key) contexts
          end) by reflexivity.
  destruct (c !! key) as [field|] eqn:Hc.
  - destruct (omap _ contexts) as [|f fs].
    + by destruct (mergedContext !! key).
    + change (last (field :: f :: fs)) with (last (f :: fs)).
      destruct (last (f :: fs)) eqn:Hlast; [done|].
      by apply last_None in Hlast.
  - destruct (last (omap _ contexts)); [done|].
    by destruct (mergedContext !! key).
Qed.

(** X5. When every provider of [allOf(p1..pn)] succeeds, all of them are
    invoked, in order, and the context is the merge of theirs in which,
    for every key, the field of the last provider that has the key wins;
    a key none of them has is absent. *)
Theorem allOf_merges (providers : list ContextProvider)
    (contexts : list ActionContext) (request : RequestData) :
  Forall2 (fun provider context => result_of (provider request) = Returned context)
          providers contexts ->
  exists merged : ActionContext,
    allOf providers request = (Returned merged, calls 0 providers request)
    /\ forall key : string,
         merged !! key = last (omap (fun context => context !! key) contexts).
Proof.
  intros Hall. unfold allOf.
  rewrite (allOf_loop_success providers contexts 0 ∅ request Hall).
  eexists. split; [reflexivity|].
  intros key. rewrite foldl_spread_lookup, lookup_empty.
  by destruct (last _).
Qed.

Lemma allOf_loop_first_failure (providers : list ContextProvider) :
  forall (i : nat) (mergedContext : ActionContext) (request : RequestData)
         (k : nat) (provider : ContextProvider) (t : thrown),
    providers !! k = Some provider ->
    (forall j q, (j < k)%nat -> providers !! j = Some q ->
                 exists c, result_of (q request) = Returned c) ->
    result_of (provider request) = Threw t ->
    allOf_loop i providers mergedContext request =
    (Threw t, calls i (take (S k) providers) request).
Proof.
  induction providers as [|q rest IH]; intros i mergedContext request k provider
    t Hk Hbefore Hfail; [done|].
  destruct k as [|k'].
  - injection Hk as ->. cbn [allOf_loop take calls].
    destruct (provider request) as [r l]. simpl in Hfail. subst r.
    simpl. by rewrite app_nil_r.
  - destruct (Hbefore 0%nat q) as [c Hc]; [lia | done |].
    simpl in Hk. cbn [allOf_loop take calls].
    destruct (q request) as [r l]. simpl in Hc. subst r.
    cbn [bind emit call trace_of snd].
    rewrite (IH (S i) (spread mergedContext c) request k' provider t Hk);
      [| intros j q' Hj Hq'; apply (Hbefore (S j) q'); [lia | done] | done].
    done.
Qed.

(** X6. When a provider of [allOf(p1..pn)] fails after all the ones
    before it succeeded, what it threw is thrown as it is (an [Error] or
    any other value, with no wrapping), and no later provider is
    invoked. *)
Theorem allOf_first_failure (providers : list ContextProvider)
    (request : RequestData) (k : nat) (provider : ContextProvider) (t : thrown) :
  providers !! k = Some provider ->
  (forall j q, (j < k)%nat -> providers !! j = Some q ->
               exists c, result_of (q request) = Returned c) ->
  result_of (provider request) = Threw t ->
  allOf providers request = (Threw t, calls 0 (take (S k) providers) request).
Proof.
  intros Hk Hbefore Hfail. unfold allOf.
  by apply allOf_loop_first_failure with provider.
Qed.

Lemma anyOf_loop_returns (providers : list ContextProvider) :
  forall (i : nat) (lastError : option Error) (request : RequestData),
    (exists c, result_of (anyOf_loop i providers lastError request) = Returned c)
    <-> Exists (fun provider => exists c, result_of (provider request) = Returned c)
               providers.
Proof.
  induction providers as [|p rest IH]; intros i lastError request.
  - simpl. split; [by intros [c ?] | by intros ?%Exists_nil].
  - cbn [anyOf_loop]. rewrite Exists_cons.
    destruct (p request) as [[c|t] l] eqn:Hp;
      cbn [try_catch bind emit call trace_of result_of fst snd].
    + split; [intros _; left; by exists c | intros _; by exists c].
    + specialize (IH (S i) (Some (toError t)) request).
      destruct (anyOf_loop (S i) rest (Some (toError t)) request) as [r l'].
      cbn [result_of fst] in *. rewrite IH.
      split; [by right | by intros [[c ?] | ?]].
Qed.

(** X7. [anyOf(p1..pn)] resolves exactly when one of its providers does;
    in particular [anyOf()] with no provider rejects every request, with
    [UNAUTHENTICATED] "Unauthorized". *)
Theorem anyOf_resolves_iff (providers : list ContextProvider) (request : RequestData) :
  ((exists c, result_of (anyOf providers request) = Returned c)
   <-> exists provider c,
         provider ∈ providers /\ result_of (provider request) = Returned c)
  /\ (providers = [] ->
      anyOf providers request =
      (Threw (ThrownError (UserFacingError "UNAUTHENTICATED" "Unauthorized")), [])).
Proof.
  split.
  - unfold anyOf. rewrite anyOf_loop_returns, Exists_exists.
    split.
    + intros (p & Hin & c & Hc). by exists p, c.
    + intros (p & c & Hin & Hc). exists p. split; [done | by exists c].
  - by intros ->.
Qed.

(** ** The CORS headers, all of them *)


(** X9. The default policy: an absent [cors] option, [true] and the empty
    options object build the same headers for every request, and these
    allow every origin ("*"), whatever origin the request names; [false]
    builds no header at all, not even [Content-Type]. *)
Theorem cors_default_policy (requestOrigin : option string) :
  buildCorsHeaders CorsUndefined requestOrigin =
  buildCorsHeaders (CorsObject empty_CorsOptions) None
  /\ buildCorsHeaders (CorsBool true) requestOrigin =
     buildCorsHeaders (CorsObject empty_CorsOptions) None
  /\ buildCorsHeaders (CorsObject empty_CorsOptions) requestOrigin !! ACAO = Some "*"
  /\ buildCorsHeaders (CorsObject empty_CorsOptions) requestOrigin
       !! "Access-Control-Allow-Credentials" = None
  /\ forall name : string, buildCorsHeaders (CorsBool false) requestOrigin !! name = None.
Proof.
  split; [reflexivity|]. split; [reflexivity|].
  split; [by rewrite buildCorsHeaders_origin|].
  split; [reflexivity|].
  intros name. apply lookup_empty.
Qed.

(** ** Headers and query parameters *)

Lemma lower_ascii_idem (c : ascii) : lower_ascii (lower_ascii c) = lower_ascii c.
Proof. by destruct c as [[] [] [] [] [] [] [] []]. Qed.

Lemma toLowerCase_idem (s : string) : toLowerCase (toLowerCase s) = toLowerCase s.
Proof.
  induction s as [|c s IH]; [done|].
  simpl. by rewrite lower_ascii_idem, IH.
Qed.

(** Assigning the entries of [l] in order, each under [f] of its name:
    a name holds the value of the last entry assigned under it. *)
Lemma foldl_assign_lookup (f : string -> string) (l : list (string * string)) :
  forall (result : gmap string string) (name : string),
    foldl (fun result kv => <[f kv.1 := kv.2]> result) result l !! name =
    match last (filter (fun kv => f kv.1 = name) l) with
    | Some kv => Some kv.2
    | None => result !! name
    end.
Proof.
  induction l as [|[k v] l IH]; intros result name; [done|].
  cbn [foldl]. rewrite IH, filter_cons. cbn [fst snd].
  destruct (decide (f k = name)) as [<-|Hne].
  - destruct (filter _ l) as [|kv kvs] eqn:Hf.
    + simpl. by rewrite lookup_insert_eq.
    + change (last ((k, v) :: kv :: kvs)) with (last (kv :: kvs)).
      destruct (last (kv :: kvs)) eqn:Hlast; [done|].
      by apply last_None in Hlast.
  - destruct (last (filter _ l)); [done|].
    by rewrite lookup_insert_ne.
Qed.

(** X10. Every name of the normalized headers is in lower case, and every
    entry comes from a header of the request whose name, lower-cased, is
    that name. *)
Theorem normalizeHeaders_lower (request : HttpRequest) (name value : string) :
  normalizeHeaders request !! name = Some value ->
  toLowerCase name = name
  /\ exists original : string,
       toLowerCase original = name /\ req_headers request !! original = Some value.
Proof.
  unfold normalizeHeaders. rewrite foldl_assign_lookup, lookup_empty.
  destruct (last _) as [[k v]|] eqn:Hlast; [|done].
  intros [= <-].
  apply last_Some_elem_of, list_elem_of_filter in Hlast as [Hk Hin].
  cbn [fst snd] in *. apply elem_of_map_to_list in Hin.
  split; [by rewrite <- Hk, toLowerCase_idem | by exists k].
Qed.



(** ** The resolved context, as a whole *)

(** X13. The platform's context has the single field [azureFunctions].
    So the resolved context is the provider's context with that field
    added; and when the provider's context has a field of that name
    itself, the resolved context is the provider's context alone, the
    platform's data being dropped. *)
Theorem resolveActionContext_azureFunctions (request : HttpRequest)
    (azureContext : InvocationContext) (input : json)
    (provider : ContextProvider) (providerContext : ActionContext) :
  contextProvider opts = Some provider ->
  result_of (provider (toRequestData request input)) = Returned providerContext ->
  dom (buildAzureFunctionsContext request azureContext) = {[ "azureFunctions" ]}
  /\ result_of (resolveActionContext request azureContext input) =
     Returned
       match providerContext !! "azureFunctions" with
       | Some _ => providerContext
       | None =>
         <["azureFunctions" :=
             default JNull
               (buildAzureFunctionsContext request azureContext !! "azureFunctions")]>
           providerContext
       end.
Proof.
  intros Hprovider Hok.
  split; [unfold buildAzureFunctionsContext; by rewrite dom_singleton_L|].
  unfold resolveActionContext. rewrite Hprovider.
  cbv zeta.
  destruct (provider (toRequestData request input)) as [r l].
  simpl in Hok. subst r. cbn. f_equal.
  apply map_eq. intros key. unfold spread. rewrite lookup_union.
  unfold buildAzureFunctionsContext.
  destruct (decide (key = "azureFunctions")) as [->|Hne].
  - rewrite lookup_singleton_eq.
    destruct (providerContext !! "azureFunctions") as [field|] eqn:Hfield.
    + by rewrite Hfield.
    + by rewrite lookup_insert_eq.
  - rewrite lookup_singleton_ne by done.
    destruct (providerContext !! "azureFunctions").
    + by destruct (providerContext !! key).
    + rewrite lookup_insert_ne by done. by destruct (providerContext !! key).
Qed.

(** ** The handlers, end to end *)

(** The preflight answer of both handlers. *)
Lemma handler_options_run (request : HttpRequest) (azureContext : InvocationContext) :
  req_method request = "OPTIONS" ->
  handler request azureContext =
  (Returned {| status := 204;
               headers := buildCorsHeaders (cors opts) (getRequestOrigin request);
               body := NoBody |},
   []).
Proof.
  intros Hm. unfold handler.
  destruct (streaming opts);
    [unfold streamingHandler | unfold standardHandler]; by rewrite Hm.
Qed.

(** The headers of an event-stream response over the CORS headers. *)
Definition sse_headers (corsHeaders : gmap string string) : gmap string string :=
  <["Connection" := "keep-alive"]>
    (<["Cache-Control" := "no-cache"]>
       (<["Content-Type" := "text/event-stream"]> corsHeaders)).

(** X14. The handler never rejects: whatever the request, the options
    and the behaviour of the provider and of the flow, it returns a
    response. A response without a stream carries exactly the CORS headers
    built for the request; a response with a stream has status 200, the
    CORS headers with [Content-Type: text/event-stream],
    [Cache-Control: no-cache] and [Connection: keep-alive] set over them,
    and a stream that is closed. *)
Theorem handler_always_responds (request : HttpRequest)
    (azureContext : InvocationContext) :
  exists response : HttpResponseInit,
    result_of (handler request azureContext) = Returned response
    /\ match body response with
       | StreamBody _ closed =>
         closed = true /\ status response = 200
         /\ headers response =
            sse_headers (buildCorsHeaders (cors opts) (getRequestOrigin request))
       | _ =>
         headers response = buildCorsHeaders (cors opts) (getRequestOrigin request)
       end.
Proof.
  destruct (String.eqb (req_method request) "OPTIONS") eqn:Hm.
  { apply String.eqb_eq in Hm. rewrite (handler_options_run _ _ Hm).
    eexists. split; [reflexivity|]. done. }
  unfold handler. destruct (streaming opts).
  - rewrite (streamingHandler_run _ _ Hm). cbv zeta.
    destruct (result_of (parseRequestBody request)) as [input|error];
      [|eexists; split; [reflexivity|]; unfold error_response;
        by destruct (onError opts)].
    destruct (result_of (resolveActionContext request azureContext input))
      as [actionContext|error];
      [|eexists; split; [reflexivity|]; unfold error_response;
        by destruct (onError opts)].
    destruct (includes _ _).
    + eexists. split; [reflexivity|]. unfold sse_response. cbn [body status headers].
      by rewrite (proj2 (start_stream input actionContext)).
    + destruct (flow_run input actionContext) as [result|error];
        eexists; (split; [reflexivity|]); [done|].
      unfold error_response. by destruct (onError opts).
  - rewrite (standardHandler_run _ _ Hm). cbv zeta.
    destruct (result_of (parseRequestBody request)) as [input|error];
      [|eexists; split; [reflexivity|]; unfold error_response;
        by destruct (onError opts)].
    destruct (result_of (resolveActionContext request azureContext input))
      as [actionContext|error];
      [|eexists; split; [reflexivity|]; unfold error_response;
        by destruct (onError opts)].
    destruct (flow_run input actionContext) as [result|error];
      eexists; (split; [reflexivity|]); [done|].
    unfold error_response. by destruct (onError opts).
Qed.

(** X15. A body that is not JSON is reported before anything else is
    looked at: in both modes the response is the error response of the
    [INVALID_ARGUMENT] failure, and neither the context provider nor the
    flow is invoked, so the request is not authenticated at all. *)
Theorem malformed_body_first (request : HttpRequest)
    (azureContext : InvocationContext) (bodyText : string) :
  req_method request <> "OPTIONS" ->
  req_text request = Some bodyText -> bodyText <> "" ->
  JSON_parse bodyText = None ->
  result_of (handler request azureContext) =
  Returned (error_response
              (ThrownError (UserFacingError "INVALID_ARGUMENT"
                              "Invalid JSON in request body"))
              (buildCorsHeaders (cors opts) (getRequestOrigin request)))
  /\ (forall requestData, EvContextProvider requestData
                          ∉ trace_of (handler request azureContext))
  /\ (forall input context,
        (EvFlowRun input context ∉ trace_of (handler request azureContext))
        /\ (EvFlowStream input context ∉ trace_of (handler request azureContext))).
Proof.
  intros Hm%String.eqb_neq Htext Hne%String.eqb_neq Hparse.
  assert (result_of (parseRequestBody request) = Threw invalid_json) as Hp.
  { by rewrite parseRequestBody_result, Htext, Hne, Hparse. }
  unfold handler.
  destruct (streaming opts);
    [rewrite (streamingHandler_run _ _ Hm) | rewrite (standardHandler_run _ _ Hm)];
    cbv zeta; rewrite Hp;
    (split; [reflexivity|]);
    (split; [intros rd Hin | intros input context; split; intros Hin]);
    not_in Hin.
Qed.

(** X16. When the context provider fails, in both modes and also for a
    request that asks for an event stream, the response is the error
    response of what the provider threw, with no wrapping; no stream is
    opened and the flow is not invoked. *)
Theorem provider_failure_stops (request : HttpRequest)
    (azureContext : InvocationContext) (provider : ContextProvider)
    (input : json) (error : thrown) :
  req_method request <> "OPTIONS" ->
  contextProvider opts = Some provider ->
  result_of (parseRequestBody request) = Returned input ->
  result_of (provider (toRequestData request input)) = Threw error ->
  result_of (handler request azureContext) =
  Returned (error_response error
              (buildCorsHeaders (cors opts) (getRequestOrigin request)))
  /\ (forall input' context,
        (EvFlowRun input' context ∉ trace_of (handler request azureContext))
        /\ (EvFlowStream input' context ∉ trace_of (handler request azureContext))).
Proof.
  intros Hm%String.eqb_neq Hprovider Hparse Hfail.
  assert (result_of (resolveActionContext request azureContext input) = Threw error)
    as Hr.
  { unfold resolveActionContext. rewrite Hprovider. cbv zeta.
    destruct (provider (toRequestData request input)) as [r l].
    simpl in Hfail. by subst r. }
  unfold handler.
  destruct (streaming opts);
    [rewrite (streamingHandler_run _ _ Hm) | rewrite (standardHandler_run _ _ Hm)];
    cbv zeta; rewrite Hparse, Hr;
    (split; [reflexivity|]);
    intros input' context; split; intros Hin;
    unfold after in Hin; cbn [trace_of snd] in Hin;
    rewrite resolveActionContext_trace in Hin; not_in Hin.
Qed.

(** The calls of [flow.run] in a trace, with their arguments. *)
Definition flow_runs (l : list event) : list (json * ActionContext) :=
  omap (fun e => match e with
                 | EvFlowRun input context => Some (input, context)
                 | _ => None
                 end) l.

Lemma flow_runs_app (l1 l2 : list event) :
  flow_runs (l1 ++ l2) = flow_runs l1 ++ flow_runs l2.
Proof. apply omap_app. Qed.

Lemma flow_runs_EvProvider (l : list provider_event) :
  flow_runs (EvProvider <$> l) = [].
Proof. by induction l. Qed.

Lemma flow_runs_resolve (request : HttpRequest) (azureContext : InvocationContext)
    (input : json) :
  flow_runs (trace_of (resolveActionContext request azureContext input)) = [].
Proof.
  rewrite resolveActionContext_trace.
  destruct (contextProvider opts); [|done].
  cbn. apply flow_runs_EvProvider.
Qed.

(** X17. The buffered path, end to end: when the body decodes to [input]
    and the context resolves to [context], the buffered handler, and the
    streaming handler for a request that does not accept an event stream,
    run the flow exactly once, on [input] and [context]; the response is
    status 200 with body [{result: <what the flow returned>}], or the
    error response of what the flow threw. *)
Theorem buffered_run (request : HttpRequest) (azureContext : InvocationContext)
    (input : json) (context : ActionContext) :
  req_method request <> "OPTIONS" ->
  streaming opts = false
  \/ includes (default "" (headers_get request "accept")) "text/event-stream" = false ->
  result_of (parseRequestBody request) = Returned input ->
  result_of (resolveActionContext request azureContext input) = Returned context ->
  result_of (handler request azureContext) =
  Returned
    match flow_run input context with
    | Returned result =>
      {| status := 200;
         headers := buildCorsHeaders (cors opts) (getRequestOrigin request);
         body := JsonBody (JObj [("result", result)]) |}
    | Threw error =>
      error_response error (buildCorsHeaders (cors opts) (getRequestOrigin request))
    end
  /\ flow_runs (trace_of (handler request azureContext)) = [(input, context)].
Proof.
  intros Hm%String.eqb_neq Hmode Hparse Hresolve.
  unfold handler.
  destruct (streaming opts) eqn:Hstreaming.
  - destruct Hmode as [|Hinc]; [done|].
    rewrite (streamingHandler_run _ _ Hm). cbv zeta.
    rewrite Hparse, Hresolve, Hinc.
    unfold after. cbn [result_of trace_of fst snd].
    rewrite !flow_runs_app, flow_runs_resolve.
    destruct (flow_run input context) as [result|error];
      (split; [reflexivity|]);
      destruct (debug opts); try reflexivity;
      unfold caught; cbn; by destruct (onError opts).
  - rewrite (standardHandler_run _ _ Hm). cbv zeta.
    rewrite Hparse, Hresolve.
    unfold after. cbn [result_of trace_of fst snd].
    rewrite !flow_runs_app, flow_runs_resolve.
    destruct (flow_run input context) as [result|error];
      (split; [reflexivity|]);
      destruct (debug opts); try reflexivity;
      unfold caught; cbn; by destruct (onError opts).
Qed.

(** X18. The streaming handler falls back to the buffered one: for a
    preflight, and for a request whose [Accept] header does not contain
    "text/event-stream", it gives the response the buffered handler
    gives; with debug logging off it makes the same calls too. *)
Theorem streaming_fallback (request : HttpRequest) (azureContext : InvocationContext) :
  req_method request = "OPTIONS"
  \/ includes (default "" (headers_get request "accept")) "text/event-stream" = false ->
  result_of (streamingHandler request azureContext) =
  result_of (standardHandler request azureContext)
  /\ (debug opts = false ->
      streamingHandler request azureContext = standardHandler request azureContext).
Proof.
  intros Hcase.
  destruct (String.eqb (req_method request) "OPTIONS") eqn:Hm.
  { unfold streamingHandler, standardHandler. by rewrite Hm. }
  destruct Hcase as [Hopt|Hinc]; [apply String.eqb_neq in Hm; done|].
  rewrite (streamingHandler_run _ _ Hm), (standardHandler_run _ _ Hm). cbv zeta.
  destruct (result_of (parseRequestBody request)) as [input|error];
    [|split; [done | by intros ->]].
  destruct (resolveActionContext request azureContext input)
    as [[actionContext|error] lr];
    cbn [result_of trace_of fst snd]; [|split; [done | by intros ->]].
  rewrite Hinc.
  destruct (flow_run input actionContext) as [result|error];
    (split; [done | by intros ->]).
Qed.

(** X19. A response has a stream only in streaming mode, for a request
    that decoded, resolved its context and accepts an event stream; the
    stream then holds one message record for each chunk the flow
    produced, in order, followed by exactly one last record: the result
    record, or the record of the failure that ended the flow. *)
Theorem stream_body_shape (request : HttpRequest) (azureContext : InvocationContext)
    (response : HttpResponseInit) (chunks : list string) (closed : bool) :
  result_of (handler request azureContext) = Returned response ->
  body response = StreamBody chunks closed ->
  streaming opts = true
  /\ includes (default "" (headers_get request "accept")) "text/event-stream" = true
  /\ exists (input : json) (context : ActionContext),
       result_of (parseRequestBody request) = Returned input
       /\ result_of (resolveActionContext request azureContext input) =
          Returned context
       /\ chunks =
          ((fun chunk => "data: " +:+ JSON_stringify (JObj [("message", chunk)])
                         +:+ LF +:+ LF)
             <$> (flow_stream input context).1)
          ++ [match (flow_stream input context).2 with
              | Returned result =>
                "data: " +:+ JSON_stringify (JObj [("result", result)]) +:+ LF +:+ LF
              | Threw error =>
                "data: " +:+ JSON_stringify (getCallableJSON error) +:+ LF +:+ LF
              end].
Proof.
  intros Hresult Hbody.
  destruct (String.eqb (req_method request) "OPTIONS") eqn:Hm.
  { apply String.eqb_eq in Hm. rewrite (handler_options_run _ _ Hm) in Hresult.
    injection Hresult as <-. done. }
  unfold handler in Hresult.
  destruct (streaming opts).
  - rewrite (streamingHandler_run _ _ Hm) in Hresult. cbv zeta in Hresult.
    destruct (result_of (parseRequestBody request)) as [input|error] eqn:Hparse;
      [|injection Hresult as <-; unfold error_response in Hbody;
        by destruct (onError opts)].
    destruct (result_of (resolveActionContext request azureContext input))
      as [context|error] eqn:Hresolve;
      [|injection Hresult as <-; unfold error_response in Hbody;
        by destruct (onError opts)].
    destruct (includes _ _).
    + injection Hresult as <-. unfold sse_response in Hbody. cbn [body] in Hbody.
      injection Hbody as <- _.
      split; [done|]. split; [done|].
      exists input, context. split; [done|]. split; [done|].
      rewrite (proj1 (start_stream input context)).
      by destruct (flow_stream input context).2.
    + destruct (flow_run input context);
        injection Hresult as <-; [done|].
      unfold error_response in Hbody. by destruct (onError opts).
  - rewrite (standardHandler_run _ _ Hm) in Hresult. cbv zeta in Hresult.
    destruct (result_of (parseRequestBody request)) as [input|error];
      [|injection Hresult as <-; unfold error_response in Hbody;
        by destruct (onError opts)].
    destruct (result_of (resolveActionContext request azureContext input))
      as [context|error];
      [|injection Hresult as <-; unfold error_response in Hbody;
        by destruct (onError opts)].
    destruct (flow_run input context);
      injection Hresult as <-; [done|].
    unfold error_response in Hbody. by destruct (onError opts).
Qed.

End Adapter.

(** * Concrete runs

    One platform and a few flows, options and requests, on which the
    definitions above are evaluated. *)

(** The double quote. *)
Definition DQ : string := String "034"%char EmptyString.

Definition hex_digit (n : nat) : ascii :=
  ascii_of_nat (if Nat.ltb n 10 then 48 + n else 87 + n).

(** [JSON.stringify]'s quoting of one character of a string. *)
Definition escape_char (c : ascii) : string :=
  let n := nat_of_ascii c in
  if Nat.eqb n 8 then "\b"
  else if Nat.eqb n 9 then "\t"
  else if Nat.eqb n 10 then "\n"
  else if Nat.eqb n 12 then "\f"
  else if Nat.eqb n 13 then "\r"
  else if Nat.eqb n 34 then "\" +:+ DQ
  else if Nat.eqb n 92 then "\\"
  else if Nat.ltb n 32
       then "\u00" +:+ String (hex_digit (n / 16)) (String (hex_digit (n mod 16)) "")
       else String c "".

Fixpoint escape (s : string) : string :=
  match s with
  | EmptyString => EmptyString
  | String c rest => escape_char c +:+ escape rest
  end.

Definition quote (s : string) : string := DQ +:+ escape s +:+ DQ.

(** [JSON.stringify(v)], without indentation. *)
Fixpoint stringify (v : json) : string :=
  match v with
  | JNull => "null"
  | JBool true => "true"
  | JBool false => "false"
  | JNum n => pretty n
  | JStr s => quote s
  | JArr items => "[" +:+ join "," (map stringify items) +:+ "]"
  | JObj props =>
    "{" +:+ join "," (map (fun kv => match kv with
                                     | (k, x) => quote k +:+ ":" +:+ stringify x
                                     end) props) +:+ "}"
  end.

(** A [JSON.parse] that knows the documents [stringify] prints for the
    values of [known], and rejects every other text. *)
Definition parse_known (known : list json) (text : string) : option json :=
  List.find (fun v => String.eqb (stringify v) text) known.

(** [String(v)]. *)
Fixpoint to_String (v : json) : string :=
  match v with
  | JNull => "null"
  | JBool true => "true"
  | JBool false => "false"
  | JNum n => pretty n
  | JStr s => s
  | JArr items =>
    join "," (map (fun x => match x with JNull => "" | _ => to_String x end) items)
  | JObj _ => "[object Object]"
  end.

(** Modelled from the spec: genkit's [getHttpStatus], which is not part of
    the repository; the status follows the kind of the error, and anything
    unrecognized is a 500. *)
Definition http_status (error : thrown) : Z :=
  match error with
  | ThrownError (UserFacingError "INVALID_ARGUMENT" _) => 400
  | ThrownError (UserFacingError "UNAUTHENTICATED" _) => 401
  | ThrownError (UserFacingError "PERMISSION_DENIED" _) => 403
  | _ => 500
  end.

(** Modelled from the spec: genkit's [getCallableJSON], which is not part
    of the repository; the body [{error: {status, message}}] from the
    error's own kind and message, [INTERNAL] for anything unrecognized. *)
Definition callable_json (error : thrown) : json :=
  match error with
  | ThrownError (UserFacingError status message) =>
    JObj [("error", JObj [("status", JStr status); ("message", JStr message)])]
  | ThrownError (PlainError message) =>
    JObj [("error", JObj [("status", JStr "INTERNAL"); ("message", JStr message)])]
  | ThrownValue v =>
    JObj [("error", JObj [("status", JStr "INTERNAL");
                          ("message", JStr (to_String v))])]
  end.

(** The invocation, the requests and the options of the runs. *)
Definition invocation : InvocationContext :=
  {| functionName := "jokeFlow"; invocationId := "0001" |}.

Definition request_of (method : string) (hdrs : gmap string string)
    (text : option string) : HttpRequest :=
  {| req_method := method;
     req_url := "https://example.test/api/jokeFlow";
     req_headers := hdrs;
     req_query := [];
     req_params := ∅;
     req_text := text |}.

Definition cors_with_origin (o : origin_option) : CorsOptions :=
  {| origin := Some o; methods := None; allowedHeaders := None;
     exposedHeaders := None; credentials := None; maxAge := None |}.

(** The rule on the allow-list ["https://a.com"]: the origin a.com is
    echoed, the origin b.com gets no header, and the single string "*" is
    emitted whatever the origin. *)
Lemma cors_origin_rule_witness :
  origin (cors_with_origin (OriginList ["https://a.com"])) =
  Some (OriginList ["https://a.com"])
  /\ buildCorsHeaders (CorsObject (cors_with_origin (OriginList ["https://a.com"])))
       (getRequestOrigin
          (request_of "POST" {[ "origin" := "https://a.com" ]} None)) !! ACAO =
     Some "https://a.com"
  /\ buildCorsHeaders (CorsObject (cors_with_origin (OriginList ["https://a.com"])))
       (getRequestOrigin
          (request_of "POST" {[ "origin" := "https://b.com" ]} None)) !! ACAO =
     None
  /\ buildCorsHeaders (CorsObject (cors_with_origin (OriginString "*")))
       (getRequestOrigin
          (request_of "POST" {[ "origin" := "https://b.com" ]} None)) !! ACAO =
     Some "*".
Proof.
  split; [reflexivity|].
  split; [|split].
  - rewrite (proj1 (cors_origin_rule
                      (cors_with_origin (OriginList ["https://a.com"]))
                      (request_of "POST" {[ "origin" := "https://a.com" ]} None))
               ["https://a.com"] eq_refl).
    vm_compute. reflexivity.
  - rewrite (proj1 (cors_origin_rule
                      (cors_with_origin (OriginList ["https://a.com"]))
                      (request_of "POST" {[ "origin" := "https://b.com" ]} None))
               ["https://a.com"] eq_refl).
    vm_compute. reflexivity.
  - apply (proj2 (cors_origin_rule
                    (cors_with_origin (OriginString "*"))
                    (request_of "POST" {[ "origin" := "https://b.com" ]} None))
             "*" eq_refl).
Defined.

(** C5, as stated, fails on an [Origin] header that is present and empty
    when the allow-list has the empty string: the origin is present and a
    member of the list, and no [Access-Control-Allow-Origin] is built. *)
Lemma cors_empty_origin_counterexample :
  headers_get (request_of "POST" {[ "origin" := "" ]} None) "origin" = Some ""
  /\ "" ∈ [""]
  /\ buildCorsHeaders (CorsObject (cors_with_origin (OriginList [""])))
       (getRequestOrigin (request_of "POST" {[ "origin" := "" ]} None)) !! ACAO =
     None.
Proof.
  split; [reflexivity|]. split; [by left|]. vm_compute. reflexivity.
Qed.

(** The documents the parser of the runs knows. *)
Definition enveloped : json := JObj [("data", JObj [("subject", JStr "cats")])].
Definition bare : json := JObj [("subject", JStr "cats")].
Definition documents : list json := [enveloped; bare].

(** The decoder on an empty body, on [{"data": {"subject": "cats"}}] and
    on the bare [{"subject": "cats"}]. *)
Lemma parseRequestBody_decodes_witness :
  parse_known documents "" = None
  /\ result_of (parseRequestBody (parse_known documents)
                  (request_of "POST" ∅ (Some ""))) = Returned (JObj [])
  /\ result_of (parseRequestBody (parse_known documents)
                  (request_of "POST" ∅ (Some (stringify enveloped)))) =
     Returned (JObj [("subject", JStr "cats")])
  /\ result_of (parseRequestBody (parse_known documents)
                  (request_of "POST" ∅ (Some (stringify bare)))) = Returned bare.
Proof.
  split; [reflexivity|].
  pose proof (parseRequestBody_decodes (parse_known documents) eq_refl) as H.
  split; [|split].
  - apply (proj1 (H _)). by right.
  - apply (proj1 (proj2 (H _)) (stringify enveloped)
             [("data", JObj [("subject", JStr "cats")])]); reflexivity.
  - apply (proj2 (proj2 (H _)) (stringify bare) bare); [reflexivity..|].
    intros props Hprops. injection Hprops as <-. reflexivity.
Defined.

(** The decoder on a body that is not JSON. *)
Lemma parseRequestBody_fails_witness :
  "not json" <> ""
  /\ parse_known documents "not json" = None
  /\ result_of (parseRequestBody (parse_known documents)
                  (request_of "POST" ∅ (Some "not json"))) =
     Threw (ThrownError
              (UserFacingError "INVALID_ARGUMENT" "Invalid JSON in request body")).
Proof.
  split; [discriminate|]. split; [reflexivity|].
  apply (proj1 (parseRequestBody_fails (parse_known documents)
                  (request_of "POST" ∅ (Some "not json"))) "not json");
    [reflexivity | discriminate | reflexivity].
Defined.

(** The flow of the runs: it tells one joke, in two chunks when streamed. *)
Definition joke : json := JObj [("joke", JStr "a b")].

Definition joke_run (input : json) (context : ActionContext) : outcome json :=
  Returned joke.

Definition joke_stream (input : json) (context : ActionContext) :
    list json * outcome json :=
  ([JStr "a"; JStr "b"], Returned joke).

(** A flow whose stream fails after its first chunk. *)
Definition failing_stream (input : json) (context : ActionContext) :
    list json * outcome json :=
  ([JStr "a"], Threw (ThrownError (PlainError "boom"))).

(** Options with an API key provider and an origin allow-list. *)
Definition protected_opts (streaming : bool) : AzureFunctionsOptions :=
  {| cors := CorsObject (cors_with_origin (OriginList ["https://a.com"]));
     contextProvider := Some (requireApiKey "X-API-Key" (ExpectedValue "secret"));
     onError := None;
     debug := true;
     streaming := streaming |}.

(** A preflight to a flow protected by an API key, in both modes. *)
Lemma handler_options_witness :
  req_method (request_of "OPTIONS" {[ "origin" := "https://a.com" ]} None) = "OPTIONS"
  /\ handler (parse_known documents) stringify to_String http_status
       callable_json joke_run joke_stream (protected_opts false)
       (request_of "OPTIONS" {[ "origin" := "https://a.com" ]} None) invocation =
     (Returned
        {| status := 204;
           headers :=
             buildCorsHeaders
               (CorsObject (cors_with_origin (OriginList ["https://a.com"])))
               (Some "https://a.com");
           body := NoBody |}, [])
  /\ handler (parse_known documents) stringify to_String http_status
       callable_json joke_run joke_stream (protected_opts true)
       (request_of "OPTIONS" {[ "origin" := "https://a.com" ]} None) invocation =
     (Returned
        {| status := 204;
           headers :=
             buildCorsHeaders
               (CorsObject (cors_with_origin (OriginList ["https://a.com"])))
               (Some "https://a.com");
           body := NoBody |}, []).
Proof.
  split; [reflexivity|].
  split.
  - rewrite (handler_options (parse_known documents) stringify to_String
               http_status callable_json joke_run joke_stream (protected_opts false)
               (request_of "OPTIONS" {[ "origin" := "https://a.com" ]} None)
               invocation eq_refl).
    reflexivity.
  - rewrite (handler_options (parse_known documents) stringify to_String
               http_status callable_json joke_run joke_stream (protected_opts true)
               (request_of "OPTIONS" {[ "origin" := "https://a.com" ]} None)
               invocation eq_refl).
    reflexivity.
Defined.

(** What a provider receives for a POST with the headers [hdrs]. *)
Definition data_with (hdrs : gmap string string) : RequestData :=
  {| rd_method := "POST"; rd_headers := hdrs; rd_input := JNull |}.



(** Both providers on [X-API-Key] present and empty. *)
Lemma empty_header_is_missing_witness :
  rd_headers (data_with {[ "x-api-key" := "" ]}) !! toLowerCase "X-API-Key" = Some ""
  /\ requireHeader "X-API-Key" (Some "secret") (data_with {[ "x-api-key" := "" ]}) =
     (Threw (ThrownError
               (UserFacingError "UNAUTHENTICATED"
                  "Missing required header: X-API-Key")), [])
  /\ requireApiKey "X-API-Key" (Validator (fun _ => Returned tt))
       (data_with {[ "x-api-key" := "" ]}) =
     (Threw (ThrownError
               (UserFacingError "UNAUTHENTICATED"
                  "Missing required header: X-API-Key")), []).
Proof.
  split; [reflexivity|].
  pose proof (empty_header_is_missing "X-API-Key"
                (data_with {[ "x-api-key" := "" ]}) eq_refl) as [Hheader Hkey].
  split; [apply Hheader | apply Hkey].
Defined.

(** Two providers for [anyOf]: an API key, or a request id. *)
Definition key_or_id : list ContextProvider :=
  [requireApiKey "X-API-Key" (ExpectedValue "secret");
   requireHeader "X-Request-ID" None].

(** [anyOf] of the two: the second succeeds after the first failed; the
    first succeeds and the second is not invoked; both fail and the
    failure is the second one's. *)
Lemma anyOf_first_success_or_last_failure_witness :
  (result_of (anyOf to_String key_or_id (data_with {[ "x-request-id" := "7" ]})) =
   Returned ∅
   /\ trace_of (anyOf to_String key_or_id (data_with {[ "x-request-id" := "7" ]})) =
      [PInvoke 0; PInvoke 1])
  /\ (result_of (anyOf to_String key_or_id (data_with {[ "x-api-key" := "secret" ]})) =
      Returned {[ "auth" := JObj [("apiKey", JStr "secret")] ]}
      /\ trace_of (anyOf to_String key_or_id (data_with {[ "x-api-key" := "secret" ]})) =
         [PInvoke 0])
  /\ result_of (anyOf to_String key_or_id (data_with {[ "x-api-key" := "wrong" ]})) =
     Threw (ThrownError
              (UserFacingError "UNAUTHENTICATED"
                 "Missing required header: X-Request-ID")).
Proof.
  split; [|split].
  - destruct (proj1 (anyOf_first_success_or_last_failure to_String key_or_id
                       (data_with {[ "x-request-id" := "7" ]}))
                1%nat (requireHeader "X-Request-ID" None) ∅) as [Hresult Htrace];
      [reflexivity| |reflexivity|].
    + intros j q Hj Hq. destruct j as [|j]; [|lia].
      injection Hq as <-. eexists. reflexivity.
    + split; [exact Hresult | rewrite Htrace; reflexivity].
  - destruct (proj1 (anyOf_first_success_or_last_failure to_String key_or_id
                       (data_with {[ "x-api-key" := "secret" ]}))
                0%nat (requireApiKey "X-API-Key" (ExpectedValue "secret"))
                {[ "auth" := JObj [("apiKey", JStr "secret")] ]})
      as [Hresult Htrace]; [reflexivity| |reflexivity|].
    + intros j q Hj. lia.
    + split; [exact Hresult | rewrite Htrace; reflexivity].
  - apply (proj2 (anyOf_first_success_or_last_failure to_String key_or_id
                    (data_with {[ "x-api-key" := "wrong" ]}))
             (requireHeader "X-Request-ID" None)
             (ThrownError (UserFacingError "UNAUTHENTICATED"
                             "Missing required header: X-Request-ID")));
      [|reflexivity|reflexivity].
    intros q Hq. apply elem_of_cons in Hq as [->|Hq].
    + eexists. reflexivity.
    + apply list_elem_of_singleton in Hq as ->. eexists. reflexivity.
Defined.

(** A provider whose context has a field of its own and one that the
    platform's context has too. *)
Definition overriding_provider : ContextProvider :=
  fun _ => ret {[ "auth" := JStr "user-1"; "azureFunctions" := JStr "mine" ]}.

Definition opts_with (provider : option ContextProvider)
    (handler : option (Error -> Z * string)) (streaming : bool) :
    AzureFunctionsOptions :=
  {| cors := CorsUndefined;
     contextProvider := provider;
     onError := handler;
     debug := false;
     streaming := streaming |}.

(** The provider's [azureFunctions] field replaces the platform's; a
    provider with no field leaves the platform's; no provider at all. *)
Lemma resolveActionContext_merge_witness :
  (exists resolved : ActionContext,
     result_of (resolveActionContext (opts_with (Some overriding_provider) None false)
                  (request_of "POST" ∅ None) invocation bare) = Returned resolved
     /\ resolved !! "azureFunctions" = Some (JStr "mine")
     /\ resolved !! "auth" = Some (JStr "user-1"))
  /\ (exists resolved : ActionContext,
        result_of (resolveActionContext
                     (opts_with (Some (requireHeader "X-Request-ID" None)) None false)
                     (request_of "POST" {[ "x-request-id" := "7" ]} None)
                     invocation bare) = Returned resolved
        /\ resolved !! "azureFunctions" =
           buildAzureFunctionsContext
             (request_of "POST" {[ "x-request-id" := "7" ]} None) invocation
           !! "azureFunctions")
  /\ resolveActionContext (opts_with None None false)
       (request_of "POST" ∅ None) invocation bare =
     (Returned (buildAzureFunctionsContext (request_of "POST" ∅ None) invocation), []).
Proof.
  split; [|split].
  - destruct (proj1 (resolveActionContext_merge
                       (opts_with (Some overriding_provider) None false)
                       (request_of "POST" ∅ None) invocation bare)
                overriding_provider
                {[ "auth" := JStr "user-1"; "azureFunctions" := JStr "mine" ]}
                eq_refl eq_refl) as (resolved & Hresolved & Hkeys).
    exists resolved. split; [exact Hresolved|].
    rewrite !Hkeys. split; reflexivity.
  - destruct (proj1 (resolveActionContext_merge
                       (opts_with (Some (requireHeader "X-Request-ID" None)) None false)
                       (request_of "POST" {[ "x-request-id" := "7" ]} None)
                       invocation bare)
                (requireHeader "X-Request-ID" None) ∅)
      as (resolved & Hresolved & Hkeys);
      [reflexivity | vm_compute; reflexivity |].
    exists resolved. split; [exact Hresolved|].
    rewrite Hkeys. reflexivity.
  - apply (proj2 (resolveActionContext_merge (opts_with None None false)
                    (request_of "POST" ∅ None) invocation bare) eq_refl).
Defined.

(** A request that asks for an event stream. *)
Definition sse_request : HttpRequest :=
  request_of "POST" {[ "accept" := "text/event-stream" ]} (Some (stringify enveloped)).


(** The body of that response, as the text on the wire. *)
Example sse_body_text :
  String.concat ""
    ["data: " +:+ stringify (JObj [("message", JStr "a")]) +:+ LF +:+ LF;
     "data: " +:+ stringify (JObj [("message", JStr "b")]) +:+ LF +:+ LF;
     "data: " +:+ stringify (JObj [("result", joke)]) +:+ LF +:+ LF] =
  "data: {" +:+ DQ +:+ "message" +:+ DQ +:+ ":" +:+ DQ +:+ "a" +:+ DQ +:+ "}"
  +:+ LF +:+ LF
  +:+ "data: {" +:+ DQ +:+ "message" +:+ DQ +:+ ":" +:+ DQ +:+ "b" +:+ DQ +:+ "}"
  +:+ LF +:+ LF
  +:+ "data: {" +:+ DQ +:+ "result" +:+ DQ +:+ ":{" +:+ DQ +:+ "joke" +:+ DQ +:+ ":"
  +:+ DQ +:+ "a b" +:+ DQ +:+ "}}" +:+ LF +:+ LF.
Proof. reflexivity. Qed.

(** ** A failure inside the stream, with [onError] configured *)

(** The override of the run: every failure becomes a 418 "custom". *)
Definition custom_onError (e : Error) : Z * string := (418, "custom").

(** C1. With [onError] configured, a flow whose stream fails after the
    response was opened gets its failure written into the stream as
    [getCallableJSON] of the failure: [onError] is not called and its
    message is not what the record carries, while [buildErrorResponse],
    given the same failure, calls [onError] and answers with its status
    and message. *)
Theorem stream_failure_skips_onError :
  (exists response : HttpResponseInit,
     result_of (handler (parse_known documents) stringify to_String http_status
                  callable_json joke_run failing_stream
                  (opts_with None (Some custom_onError) true)
                  sse_request invocation) = Returned response
     /\ status response = 200
     /\ body response =
        StreamBody
          ["data: " +:+ stringify (JObj [("message", JStr "a")]) +:+ LF +:+ LF;
           "data: " +:+ stringify (callable_json (ThrownError (PlainError "boom")))
             +:+ LF +:+ LF]
          true)
  /\ trace_of (handler (parse_known documents) stringify to_String http_status
                 callable_json joke_run failing_stream
                 (opts_with None (Some custom_onError) true)
                 sse_request invocation) =
     [EvText;
      EvFlowStream bare (buildAzureFunctionsContext sse_request invocation);
      EvEnqueue ("data: " +:+ stringify (JObj [("message", JStr "a")]) +:+ LF +:+ LF);
      EvError (ThrownError (PlainError "boom"));
      EvEnqueue ("data: "
                 +:+ stringify (callable_json (ThrownError (PlainError "boom")))
                 +:+ LF +:+ LF);
      EvClose]
  /\ buildErrorResponse to_String http_status callable_json
       (opts_with None (Some custom_onError) true)
       (ThrownError (PlainError "boom")) ∅ =
     (Returned {| status := 418;
                  headers := ∅;
                  body := JsonBody (internal_error_body "custom") |},
      [EvOnError (PlainError "boom")])
  /\ stringify (callable_json (ThrownError (PlainError "boom"))) <>
     stringify (internal_error_body "custom").
Proof.
  split; [|split; [|split]].
  - eexists. split; [reflexivity|]. split; reflexivity.
  - reflexivity.
  - reflexivity.
  - discriminate.
Qed.

(** * Debug logging *)

Section Logging.

Variable JSON_parse : string -> option json.
Variable JSON_stringify : json -> string.
Variable js_String : json -> string.
Variable getHttpStatus : thrown -> Z.
Variable getCallableJSON : thrown -> json.
Variable flow_run : json -> ActionContext -> outcome json.
Variable flow_stream : json -> ActionContext -> list json * outcome json.

(** The options [o] with the [debug] flag set to [b]. *)
Definition with_debug (b : bool) (o : AzureFunctionsOptions) : AzureFunctionsOptions :=
  {| cors := cors o;
     contextProvider := contextProvider o;
     onError := onError o;
     debug := b;
     streaming := streaming o |}.

Definition is_log (e : event) : bool :=
  match e with
  | EvLog _ => true
  | _ => false
  end.

(** A trace without its [azureContext.log] calls. *)
Definition without_logs (l : list event) : list event :=
  List.filter (fun e => negb (is_log e)) l.

Lemma without_logs_app (l1 l2 : list event) :
  without_logs (l1 ++ l2) = without_logs l1 ++ without_logs l2.
Proof. apply List.filter_app. Qed.

Lemma without_logs_EvProvider (l : list provider_event) :
  without_logs (EvProvider <$> l) = EvProvider <$> l.
Proof. induction l as [|e l IH]; [done|]. cbn. by f_equal. Qed.

Lemma without_logs_EvEnqueue (l : list string) :
  without_logs (EvEnqueue <$> l) = EvEnqueue <$> l.
Proof. induction l as [|e l IH]; [done|]. cbn. by f_equal. Qed.

Lemma without_logs_resolve (o : AzureFunctionsOptions) (request : HttpRequest)
    (azureContext : InvocationContext) (input : json) :
  without_logs (trace_of (resolveActionContext o request azureContext input)) =
  trace_of (resolveActionContext o request azureContext input).
Proof.
  rewrite resolveActionContext_trace.
  destruct (contextProvider o); [|done].
  cbn. f_equal. apply without_logs_EvProvider.
Qed.

Lemma without_logs_start (b : bool) (o : AzureFunctionsOptions)
    (input : json) (context : ActionContext) :
  without_logs
    (trace_of (start JSON_stringify getCallableJSON flow_stream (with_debug b o)
                 input context)) =
  trace_of (start JSON_stringify getCallableJSON flow_stream (with_debug false o)
              input context).
Proof.
  rewrite !start_run. cbn [trace_of snd debug with_debug].
  change (EvFlowStream input context :: ?l) with ([EvFlowStream input context] ++ l).
  rewrite !without_logs_app, without_logs_EvEnqueue.
  destruct (flow_stream input context).2; [|done].
  by destruct b.
Qed.

(** X20. Debug logging is observation only: with the [debug] flag on, the
    handler gives the response it gives with the flag off, and makes the
    same calls in the same order, the [azureContext.log] calls apart. *)
Theorem debug_is_observation (o : AzureFunctionsOptions) (request : HttpRequest)
    (azureContext : InvocationContext) :
  result_of (handler JSON_parse JSON_stringify js_String getHttpStatus
               getCallableJSON flow_run flow_stream (with_debug true o)
               request azureContext) =
  result_of (handler JSON_parse JSON_stringify js_String getHttpStatus
               getCallableJSON flow_run flow_stream (with_debug false o)
               request azureContext)
  /\ without_logs
       (trace_of (handler JSON_parse JSON_stringify js_String getHttpStatus
                    getCallableJSON flow_run flow_stream (with_debug true o)
                    request azureContext)) =
     trace_of (handler JSON_parse JSON_stringify js_String getHttpStatus
                 getCallableJSON flow_run flow_stream (with_debug false o)
                 request azureContext).
Proof.
  destruct (String.eqb (req_method request) "OPTIONS") eqn:Hm.
  { apply String.eqb_eq in Hm. by rewrite !handler_options_run. }
  unfold handler. cbn [streaming with_debug].
  destruct (streaming o).
  - rewrite !streamingHandler_run by exact Hm. cbv zeta.
    cbn [cors debug with_debug].
    destruct (result_of (parseRequestBody JSON_parse request)) as [input|error];
      [|split; [done|]; unfold after; cbn; by destruct (onError o)].
    change (resolveActionContext (with_debug true o))
      with (resolveActionContext o).
    change (resolveActionContext (with_debug false o))
      with (resolveActionContext o).
    pose proof (without_logs_resolve o request azureContext input) as Hr.
    destruct (resolveActionContext o request azureContext input)
      as [[context|error] lr]; cbn [result_of trace_of fst snd] in *.
    + destruct (includes _ _).
      * unfold after, sse_response. cbn [result_of trace_of fst snd].
        destruct (start_stream JSON_stringify getCallableJSON flow_stream
                    (with_debug true o) input context) as [-> ->].
        destruct (start_stream JSON_stringify getCallableJSON flow_stream
                    (with_debug false o) input context) as [-> ->].
        split; [done|].
        change (EvLog ?e :: ?l1 ++ ?l2) with ([EvLog e] ++ l1 ++ l2).
        change (EvText :: ?l1 ++ ?l2) with ([EvText] ++ l1 ++ l2).
        rewrite !without_logs_app, Hr, without_logs_start. done.
      * unfold after. cbn [result_of trace_of fst snd].
        split; [by destruct (flow_run input context)|].
        change (EvLog ?e :: ?l1 ++ ?l2) with ([EvLog e] ++ l1 ++ l2).
        change (EvText :: ?l1 ++ ?l2) with ([EvText] ++ l1 ++ l2).
        rewrite !without_logs_app, Hr.
        destruct (flow_run input context); cbn; [done|].
        by destruct (onError o).
    + split; [done|]. unfold after. cbn [result_of trace_of fst snd].
      change (EvLog ?e :: ?l1 ++ ?l2) with ([EvLog e] ++ l1 ++ l2).
      change (EvText :: ?l1 ++ ?l2) with ([EvText] ++ l1 ++ l2).
      rewrite !without_logs_app, Hr. cbn. by destruct (onError o).
  - rewrite !standardHandler_run by exact Hm. cbv zeta.
    cbn [cors debug with_debug].
    destruct (result_of (parseRequestBody JSON_parse request)) as [input|error];
      [|split; [done|]; unfold after; cbn; by destruct (onError o)].
    change (resolveActionContext (with_debug true o))
      with (resolveActionContext o).
    change (resolveActionContext (with_debug false o))
      with (resolveActionContext o).
    pose proof (without_logs_resolve o request azureContext input) as Hr.
    destruct (resolveActionContext o request azureContext input)
      as [[context|error] lr]; cbn [result_of trace_of fst snd] in *.
    + unfold after. cbn [result_of trace_of fst snd].
      split; [by destruct (flow_run input context)|].
      change (EvLog ?e1 :: EvLog ?e2 :: EvText :: ?l1 ++ ?l2)
        with ([EvLog e1; EvLog e2; EvText] ++ l1 ++ l2).
      change (EvText :: ?l1 ++ ?l2) with ([EvText] ++ l1 ++ l2).
      rewrite !without_logs_app, Hr.
      destruct (flow_run input context); cbn; [done|].
      by destruct (onError o).
    + split; [done|]. unfold after. cbn [result_of trace_of fst snd].
      change (EvLog ?e1 :: EvLog ?e2 :: EvText :: ?l1 ++ ?l2)
        with ([EvLog e1; EvLog e2; EvText] ++ l1 ++ l2).
      change (EvText :: ?l1 ++ ?l2) with ([EvText] ++ l1 ++ l2).
      rewrite !without_logs_app, Hr. cbn. by destruct (onError o).
Qed.

End Logging.

(** * Further concrete runs *)

(** "Bearer abc" gives the token "abc"; on "Bearer" followed by three
    spaces the greedy white space gives one space back as the token. *)
Lemma match_bearer_spec_witness :
  match_bearer "Bearer abc" = Some "abc"
  /\ exists scheme spaces : string,
       "Bearer   " = scheme +:+ spaces +:+ " "
       /\ toLowerCase scheme = "bearer" /\ spaces <> "" /\ all_space spaces = true.
Proof.
  split.
  - apply (proj2 (match_bearer_spec "Bearer abc" "abc")).
    exists "Bearer", " ". repeat split; try done.
    intros c rest Htoken Hspace. injection Htoken as <- <-. discriminate Hspace.
  - destruct (proj1 (match_bearer_spec "Bearer   " " ") eq_refl)
      as (scheme & spaces & Hsplit & Hscheme & Hne & Hspaces & _).
    by exists scheme, spaces.
Defined.

(** A token validator that accepts every token. *)
Definition accept_token (token : string) : outcome ActionContext :=
  Returned {[ "auth" := JObj [("token", JStr token)] ]}.

(** The bearer provider without the header, with another scheme and with
    a bearer token. *)
Lemma requireBearerToken_cases_witness :
  requireBearerToken accept_token (data_with ∅) =
  (Threw (ThrownError
            (UserFacingError "UNAUTHENTICATED" "Missing Authorization header")), [])
  /\ requireBearerToken accept_token (data_with {[ "authorization" := "Basic abc" ]}) =
     (Threw (ThrownError
               (UserFacingError "UNAUTHENTICATED"
                  "Invalid Authorization header format. Expected: Bearer <token>")),
      [])
  /\ requireBearerToken accept_token (data_with {[ "authorization" := "bearer abc" ]}) =
     (Returned {[ "auth" := JObj [("token", JStr "abc")] ]}, [PValidator "abc"]).
Proof.
  split; [|split].
  - apply (proj1 (requireBearerToken_cases accept_token (data_with ∅))). by left.
  - apply (proj1 (proj2 (requireBearerToken_cases accept_token
                           (data_with {[ "authorization" := "Basic abc" ]})))
             "Basic abc"); [reflexivity | discriminate | reflexivity].
  - apply (proj2 (proj2 (requireBearerToken_cases accept_token
                           (data_with {[ "authorization" := "bearer abc" ]})))
             "bearer abc" "abc"); reflexivity.
Defined.


(** A validator that accepts the key "secret" alone. *)
Definition only_secret (apiKey : string) : outcome unit :=
  if String.eqb apiKey "secret" then Returned tt
  else Threw (ThrownError (UserFacingError "PERMISSION_DENIED" "Invalid API key")).

Lemma requireApiKey_validator_witness :
  requireApiKey "X-API-Key" (Validator only_secret)
    (data_with {[ "x-api-key" := "secret" ]}) =
  (Returned {[ "auth" := JObj [("apiKey", JStr "secret")] ]}, [PValidator "secret"])
  /\ requireApiKey "X-API-Key" (Validator only_secret)
       (data_with {[ "x-api-key" := "guess" ]}) =
     (Threw (ThrownError (UserFacingError "PERMISSION_DENIED" "Invalid API key")),
      [PValidator "guess"]).
Proof.
  split.
  - apply (requireApiKey_validator "X-API-Key" only_secret
             (data_with {[ "x-api-key" := "secret" ]}) "secret");
      [reflexivity | discriminate].
  - apply (requireApiKey_validator "X-API-Key" only_secret
             (data_with {[ "x-api-key" := "guess" ]}) "guess");
      [reflexivity | discriminate].
Defined.

(** Two providers with a field in common. *)
Definition first_provider : ContextProvider :=
  fun _ => ret {[ "auth" := JStr "first"; "tenant" := JStr "t1" ]}.

Definition second_provider : ContextProvider :=
  fun _ => ret {[ "auth" := JStr "second" ]}.

Lemma allOf_merges_witness :
  exists merged : ActionContext,
    allOf [first_provider; second_provider] (data_with ∅) =
    (Returned merged, [PInvoke 0; PInvoke 1])
    /\ merged !! "auth" = Some (JStr "second")
    /\ merged !! "tenant" = Some (JStr "t1")
    /\ merged !! "other" = None.
Proof.
  destruct (allOf_merges [first_provider; second_provider]
              [ {[ "auth" := JStr "first"; "tenant" := JStr "t1" ]};
                {[ "auth" := JStr "second" ]} ] (data_with ∅))
    as (merged & Hrun & Hkeys).
  { repeat constructor. }
  exists merged. split; [exact Hrun|].
  rewrite !Hkeys. repeat split; vm_compute; reflexivity.
Defined.

Lemma allOf_first_failure_witness :
  allOf [requireHeader "X-Request-ID" None;
         requireApiKey "X-API-Key" (ExpectedValue "secret");
         first_provider]
    (data_with {[ "x-request-id" := "7" ]}) =
  (Threw (ThrownError
            (UserFacingError "UNAUTHENTICATED" "Missing required header: X-API-Key")),
   [PInvoke 0; PInvoke 1]).
Proof.
  rewrite (allOf_first_failure
             [requireHeader "X-Request-ID" None;
              requireApiKey "X-API-Key" (ExpectedValue "secret");
              first_provider]
             (data_with {[ "x-request-id" := "7" ]}) 1%nat
             (requireApiKey "X-API-Key" (ExpectedValue "secret"))
             (ThrownError
                (UserFacingError "UNAUTHENTICATED"
                   "Missing required header: X-API-Key")));
    [reflexivity | reflexivity | | reflexivity].
  intros j q Hj Hq. destruct j as [|j]; [|lia].
  injection Hq as <-. eexists. reflexivity.
Defined.

Lemma anyOf_resolves_iff_witness :
  (exists c, result_of (anyOf to_String key_or_id
                          (data_with {[ "x-request-id" := "7" ]})) = Returned c)
  /\ anyOf to_String [] (data_with ∅) =
     (Threw (ThrownError (UserFacingError "UNAUTHENTICATED" "Unauthorized")), []).
Proof.
  split.
  - apply (proj2 (proj1 (anyOf_resolves_iff to_String key_or_id
                           (data_with {[ "x-request-id" := "7" ]})))).
    exists (requireHeader "X-Request-ID" None), ∅.
    split; [|reflexivity]. apply elem_of_cons. right. by left.
  - apply (proj2 (anyOf_resolves_iff to_String [] (data_with ∅)) eq_refl).
Defined.


(** A header map that holds a name in mixed case, which the platform's
    never does: normalizing lower-cases it. *)
Lemma normalizeHeaders_lower_witness :
  normalizeHeaders (request_of "POST" {[ "X-Api-Key" := "k" ]} None) !! "x-api-key" =
  Some "k"
  /\ toLowerCase "x-api-key" = "x-api-key"
  /\ exists original : string,
       toLowerCase original = "x-api-key"
       /\ ({[ "X-Api-Key" := "k" ]} : gmap string string) !! original = Some "k".
Proof.
  assert (normalizeHeaders (request_of "POST" {[ "X-Api-Key" := "k" ]} None)
          !! "x-api-key" = Some "k") as Hnormalized by (vm_compute; reflexivity).
  split; [exact Hnormalized|].
  exact (normalizeHeaders_lower (request_of "POST" {[ "X-Api-Key" := "k" ]} None)
           "x-api-key" "k" Hnormalized).
Defined.


(** The provider that has a field [azureFunctions] keeps its own and
    loses the platform's; the provider with no field gets the platform's. *)
Lemma resolveActionContext_azureFunctions_witness :
  result_of (resolveActionContext (opts_with (Some overriding_provider) None false)
               (request_of "POST" ∅ None) invocation bare) =
  Returned {[ "auth" := JStr "user-1"; "azureFunctions" := JStr "mine" ]}
  /\ result_of (resolveActionContext
                  (opts_with (Some (requireHeader "X-Request-ID" None)) None false)
                  (request_of "POST" {[ "x-request-id" := "7" ]} None)
                  invocation bare) =
     Returned (buildAzureFunctionsContext
                 (request_of "POST" {[ "x-request-id" := "7" ]} None) invocation).
Proof.
  split.
  - rewrite (proj2 (resolveActionContext_azureFunctions
                      (opts_with (Some overriding_provider) None false)
                      (request_of "POST" ∅ None) invocation bare
                      overriding_provider
                      {[ "auth" := JStr "user-1"; "azureFunctions" := JStr "mine" ]}
                      eq_refl eq_refl)).
    reflexivity.
  - assert (result_of (requireHeader "X-Request-ID" None
                         (toRequestData
                            (request_of "POST" {[ "x-request-id" := "7" ]} None) bare)) =
            Returned (∅ : ActionContext)) as Hok by (vm_compute; reflexivity).
    rewrite (proj2 (resolveActionContext_azureFunctions
                      (opts_with (Some (requireHeader "X-Request-ID" None)) None false)
                      (request_of "POST" {[ "x-request-id" := "7" ]} None)
                      invocation bare
                      (requireHeader "X-Request-ID" None) ∅ eq_refl Hok)).
    vm_compute. reflexivity.
Defined.

(** A body that is not JSON, sent without the API key to a protected
    flow: the answer is the 400 of the body, not the 401 of the key. *)
Lemma malformed_body_first_witness :
  result_of (handler (parse_known documents) stringify to_String http_status
               callable_json joke_run joke_stream (protected_opts false)
               (request_of "POST" ∅ (Some "not json")) invocation) =
  Returned {| status := 400;
              headers :=
                buildCorsHeaders
                  (CorsObject (cors_with_origin (OriginList ["https://a.com"]))) None;
              body :=
                JsonBody
                  (JObj [("error",
                          JObj [("status", JStr "INVALID_ARGUMENT");
                                ("message", JStr "Invalid JSON in request body")])]) |}.
Proof.
  rewrite (proj1 (malformed_body_first (parse_known documents) stringify to_String
                    http_status callable_json joke_run joke_stream
                    (protected_opts false)
                    (request_of "POST" ∅ (Some "not json")) invocation "not json"
                    ltac:(discriminate) eq_refl ltac:(discriminate) eq_refl)).
  reflexivity.
Defined.

(** A request for an event stream without the API key: a plain 401, no
    stream. *)
Lemma provider_failure_stops_witness :
  result_of (handler (parse_known documents) stringify to_String http_status
               callable_json joke_run joke_stream (protected_opts true)
               sse_request invocation) =
  Returned {| status := 401;
              headers :=
                buildCorsHeaders
                  (CorsObject (cors_with_origin (OriginList ["https://a.com"]))) None;
              body :=
                JsonBody
                  (JObj [("error",
                          JObj [("status", JStr "UNAUTHENTICATED");
                                ("message",
                                 JStr "Missing required header: X-API-Key")])]) |}.
Proof.
  rewrite (proj1 (provider_failure_stops (parse_known documents) stringify to_String
                    http_status callable_json joke_run joke_stream
                    (protected_opts true) sse_request invocation
                    (requireApiKey "X-API-Key" (ExpectedValue "secret")) bare
                    (ThrownError
                       (UserFacingError "UNAUTHENTICATED"
                          "Missing required header: X-API-Key"))
                    ltac:(discriminate) eq_refl
                    ltac:(vm_compute; reflexivity)
                    ltac:(vm_compute; reflexivity))).
  reflexivity.
Defined.

(** The joke flow behind the buffered handler. *)
Lemma buffered_run_witness :
  result_of (handler (parse_known documents) stringify to_String http_status
               callable_json joke_run joke_stream (opts_with None None false)
               (request_of "POST" ∅ (Some (stringify enveloped))) invocation) =
  Returned {| status := 200;
              headers := buildCorsHeaders CorsUndefined None;
              body := JsonBody (JObj [("result", joke)]) |}
  /\ flow_runs
       (trace_of (handler (parse_known documents) stringify to_String http_status
                    callable_json joke_run joke_stream (opts_with None None false)
                    (request_of "POST" ∅ (Some (stringify enveloped))) invocation)) =
     [(bare,
       buildAzureFunctionsContext
         (request_of "POST" ∅ (Some (stringify enveloped))) invocation)].
Proof.
  destruct (buffered_run (parse_known documents) stringify to_String http_status
              callable_json joke_run joke_stream (opts_with None None false)
              (request_of "POST" ∅ (Some (stringify enveloped))) invocation bare
              (buildAzureFunctionsContext
                 (request_of "POST" ∅ (Some (stringify enveloped))) invocation)
              ltac:(discriminate) (or_introl eq_refl)
              ltac:(vm_compute; reflexivity) eq_refl)
    as [Hresult Hruns].
  split; [rewrite Hresult; reflexivity | exact Hruns].
Defined.

(** A request that accepts JSON, to the streaming handler. *)
Lemma streaming_fallback_witness :
  result_of (streamingHandler (parse_known documents) stringify to_String http_status
               callable_json joke_run joke_stream (opts_with None None true)
               (request_of "POST" {[ "accept" := "application/json" ]}
                  (Some (stringify enveloped))) invocation) =
  result_of (standardHandler (parse_known documents) to_String http_status
               callable_json joke_run (opts_with None None true)
               (request_of "POST" {[ "accept" := "application/json" ]}
                  (Some (stringify enveloped))) invocation).
Proof.
  assert (includes
            (default ""
               (headers_get
                  (request_of "POST" {[ "accept" := "application/json" ]}
                     (Some (stringify enveloped))) "accept"))
            "text/event-stream" = false) as Haccept by (vm_compute; reflexivity).
  apply (proj1 (streaming_fallback (parse_known documents) stringify to_String
                  http_status callable_json joke_run joke_stream
                  (opts_with None None true)
                  (request_of "POST" {[ "accept" := "application/json" ]}
                     (Some (stringify enveloped))) invocation
                  (or_intror Haccept))).
Defined.

(** The stream of the failing flow: the record of its chunk, then the
    record of its failure. *)
Lemma stream_body_shape_witness :
  exists (input : json) (context : ActionContext),
    result_of (parseRequestBody (parse_known documents) sse_request) = Returned input
    /\ ["data: " +:+ stringify (JObj [("message", JStr "a")]) +:+ LF +:+ LF;
        "data: " +:+ stringify (callable_json (ThrownError (PlainError "boom")))
          +:+ LF +:+ LF] =
       ((fun chunk => "data: " +:+ stringify (JObj [("message", chunk)]) +:+ LF +:+ LF)
          <$> (failing_stream input context).1)
       ++ [match (failing_stream input context).2 with
           | Returned result =>
             "data: " +:+ stringify (JObj [("result", result)]) +:+ LF +:+ LF
           | Threw error => "data: " +:+ stringify (callable_json error) +:+ LF +:+ LF
           end].
Proof.
  destruct (stream_body_shape (parse_known documents) stringify to_String http_status
              callable_json joke_run failing_stream (opts_with None None true)
              sse_request invocation
              {| status := 200;
                 headers := sse_headers (buildCorsHeaders CorsUndefined None);
                 body :=
                   StreamBody
                     ["data: " +:+ stringify (JObj [("message", JStr "a")])
                        +:+ LF +:+ LF;
                      "data: "
                        +:+ stringify (callable_json (ThrownError (PlainError "boom")))
                        +:+ LF +:+ LF]
                     true |}
              ["data: " +:+ stringify (JObj [("message", JStr "a")]) +:+ LF +:+ LF;
               "data: " +:+ stringify (callable_json (ThrownError (PlainError "boom")))
                 +:+ LF +:+ LF]
              true ltac:(vm_compute; reflexivity) eq_refl)
    as (_ & _ & input & context & Hparse & _ & Hchunks).
  exists input, context. split; [exact Hparse | exact Hchunks].
Defined.
